(** * research-utils: file I/O helpers and matplotlib helpers

    A shallow embedding of [rutils/base/fileio.py] and
    [rutils/base/mplhelper.py], and the properties of the two modules.

    Conventions of the embedding.
    - A Python number is a rational [Q]: the value of an [int] or of a
      finite [float].  Comparisons are the numeric ones ([Qeq_bool],
      [Qle_bool]); negation, [abs] and [max] are exact; an addition or a
      multiplication of floats is the exact one followed by [round64],
      the rounding to the nearest binary64 number, and a decimal literal
      stands for the float nearest to it.  NaN and the infinities are
      outside the model.
    - A Python exception is a constructor of [exn]; a function that can
      raise returns a [result].  The state a call leaves behind when it
      raises is not described.
    - A [dict] used as keyword arguments is a [gmap string pyval].
    - Functions of the standard library and of third-party packages
      ([os], [open], [str.format], [json], [pickle], [msgpack], [pandas],
      [hashlib], [matplotlib]) are not part of the repository.  The
      operating-system ones are modelled on a small POSIX file system; the
      others are fields of type classes, so every theorem holds for any
      implementation of them. *)

From Stdlib Require Import QArith Qabs ZArith String Ascii List Lqa.
From Stdlib.Strings Require Import Byte.
From stdpp Require Import gmap strings list fin_maps pretty.
From Equations Require Import Equations.

Open Scope string_scope.
Set Warnings "-register-all,-clear-no-such-hyp".
Set Default Proof Using "Type".

(* ===================================================================== *)
(** * Python values, exceptions and calls                                 *)
(* ===================================================================== *)

Inductive exn : Type :=
| KeyError (key : string)
| TypeError
| ValueError
| IndexError
| FileNotFoundError
| FileExistsError
| NotADirectoryError
| IsADirectoryError.

Inductive result (A : Type) : Type :=
| Ok (a : A)
| Raise (e : exn).

Arguments Ok {A} a.
Arguments Raise {A} e.

#[global] Instance result_ret : MRet result := fun _ a => Ok a.
#[global] Instance result_bind : MBind result := fun _ _ f r =>
  match r with
  | Ok a => f a
  | Raise e => Raise e
  end.

Inductive pyval : Type :=
| PyNone
| PyBool (b : bool)
| PyNum (q : Q)
| PyStr (s : string)
| PyTuple (items : list pyval)
| PyList (items : list pyval)
| PyDict (items : list (pyval * pyval)).

(** Truth value of an object, as [if obj:] tests it. *)
Definition truthy (v : pyval) : bool :=
  match v with
  | PyNone => false
  | PyBool b => b
  | PyNum q => negb (Qeq_bool q 0)
  | PyStr s => negb (String.eqb s "")
  | PyTuple l | PyList l => negb (Nat.eqb (length l) 0)
  | PyDict l => negb (Nat.eqb (length l) 0)
  end.

(** [a < b] on numbers. *)
Definition Qlt_bool (a b : Q) : bool := negb (Qle_bool b a).

(** Rounding to an integer, ties to the even one: [n / d] for [0 < d]. *)
Definition round_half_even (n d : Z) : Z :=
  let fl := (n / d)%Z in
  match (2 * (n mod d) ?= d)%Z with
  | Lt => fl
  | Gt => (fl + 1)%Z
  | Eq => if Z.even fl then fl else (fl + 1)%Z
  end.

(** The float (IEEE 754 binary64, round to nearest, ties to even) nearest
    to a rational: a significand [m] of at most 53 bits and an exponent
    [e >= -1074] with [m * 2^e] nearest to [q].  A rational that is a
    float is returned as it is.  What Python computes for [a + b] and
    [a * b] on floats is [round64] of the exact sum and product. *)
Definition round64 (q : Q) : Q :=
  let n := Z.abs (Qnum q) in
  let d := Zpos (Qden q) in
  if (n =? 0)%Z then q
  else
    let scaled (e : Z) : Z * Z :=
      if (0 <=? e)%Z then (n, d * 2 ^ e)%Z else (n * 2 ^ (- e), d)%Z in
    let e0 := (Z.log2 n - Z.log2 d - 52)%Z in
    let e := (let '(a, b) := scaled e0 in
              if (a <? 2 ^ 52 * b) then e0 - 1 else e0)%Z in
    let e := Z.max e (-1074) in
    let '(a, b) := scaled e in
    let m := round_half_even a b in
    if (m * b =? a)%Z then q
    else
      let m := (Z.sgn (Qnum q) * m)%Z in
      if (0 <=? e)%Z then inject_Z (m * 2 ^ e) else Qmake m (Z.to_pos (2 ^ (- e))).

(** [max(a, *rest)]: the first of the largest arguments. *)
Definition py_max (a : Q) (rest : list Q) : Q :=
  fold_left (fun best v => if Qlt_bool best v then v else best) rest a.

(** [d[key]] on a dict literal: [KeyError] when the key is missing. *)
Definition getitem {V : Type} (d : gmap string V) (key : string) : result V :=
  match d !! key with
  | Some v => Ok v
  | None => Raise (KeyError key)
  end.

(** [d.update(other)]: the entries of [other] win. *)
Definition dict_update {V : Type} (d other : gmap string V) : gmap string V :=
  other ∪ d.

(** The keyword arguments of a call [f(..., k1=v1, ..., **star)]: a key
    given both explicitly and in [star] is a [TypeError] ("got multiple
    values for keyword argument"). *)
Fixpoint call_kw (explicit : list (string * pyval)) (star : gmap string pyval)
  : result (gmap string pyval) :=
  match explicit with
  | [] => Ok star
  | (k, v) :: rest =>
      match star !! k with
      | Some _ => Raise TypeError
      | None => kw ← call_kw rest star; Ok (<[k := v]> kw)
      end
  end.

(** [str.lower] on the ASCII range. *)
Definition lower_ascii (c : ascii) : ascii :=
  let n := N_of_ascii c in
  if (65 <=? n)%N && (n <=? 90)%N then ascii_of_N (n + 32) else c.

Fixpoint lower (s : string) : string :=
  match s with
  | EmptyString => EmptyString
  | String c s' => String (lower_ascii c) (lower s')
  end.

(** [template.format(value)] is the library's; it can raise. *)
Class StrFormat : Type := { str_format : string -> Q -> result string }.

(** A formatter to run examples with: integers, rendered in decimal, and
    templates made of text, the doubled braces that stand for a brace and
    at most one [{}] field.  A stray brace is a [ValueError], a second
    field an [IndexError]. *)
Fixpoint subst_braces (template : string) (value : option string) : result string :=
  match template with
  | EmptyString => Ok EmptyString
  | String "{" (String "{" rest) => s ← subst_braces rest value; Ok (String "{" s)
  | String "}" (String "}" rest) => s ← subst_braces rest value; Ok (String "}" s)
  | String "{" (String "}" rest) =>
      match value with
      | Some v => s ← subst_braces rest None; Ok (v +:+ s)
      | None => Raise IndexError
      end
  | String "{" _ | String "}" _ => Raise ValueError
  | String c rest => s ← subst_braces rest value; Ok (String c s)
  end.

Definition decimal_format : StrFormat :=
  {| str_format template q :=
       if Pos.eqb (Qden q) 1 then subst_braces template (Some (pretty (Qnum q)))
       else Raise ValueError |}.

(* ===================================================================== *)
(** * os.path                                                             *)
(* ===================================================================== *)

(** [path.split('/')] *)
Fixpoint split_slash (path : string) : list string :=
  match path with
  | EmptyString => [EmptyString]
  | String c rest =>
      if Ascii.eqb c "/" then EmptyString :: split_slash rest
      else match split_slash rest with
           | comp :: comps => String c comp :: comps
           | [] => [String c EmptyString]
           end
  end.

(** ['/'.join(comps)] *)
Fixpoint join_slash (comps : list string) : string :=
  match comps with
  | [] => ""
  | [comp] => comp
  | comp :: comps' => comp +:+ "/" +:+ join_slash comps'
  end.

Fixpoint startswith (prefix s : string) : bool :=
  match prefix, s with
  | EmptyString, _ => true
  | String a p', String b s' => Ascii.eqb a b && startswith p' s'
  | _, _ => false
  end.

(** [s.rstrip('/')] *)
Fixpoint rstrip_slash (s : string) : string :=
  match s with
  | EmptyString => EmptyString
  | String c rest =>
      match rstrip_slash rest with
      | EmptyString => if Ascii.eqb c "/" then EmptyString else String c EmptyString
      | r => String c r
      end
  end.

(** The loop of [posixpath.normpath] over the components; [new_comps] is
    kept last component first. *)
Fixpoint normpath_comps (initial_slashes : bool) (comps new_comps : list string)
  : list string :=
  match comps with
  | [] => rev new_comps
  | comp :: comps' =>
      if String.eqb comp "" || String.eqb comp "." then
        normpath_comps initial_slashes comps' new_comps
      else if negb (String.eqb comp "..")
              || (negb initial_slashes && Nat.eqb (length new_comps) 0)
              || match new_comps with
                 | last :: _ => String.eqb last ".."
                 | [] => false
                 end
      then normpath_comps initial_slashes comps' (comp :: new_comps)
      else normpath_comps initial_slashes comps' (tl new_comps)
  end.

(** [os.path.normpath] *)
Definition normpath (path : string) : string :=
  if String.eqb path "" then "."
  else
    let initial_slashes :=
      if startswith "/" path then
        (if startswith "//" path && negb (startswith "///" path) then "//" else "/")
      else "" in
    let comps := normpath_comps (startswith "/" path) (split_slash path) [] in
    let path := initial_slashes +:+ join_slash comps in
    if String.eqb path "" then "." else path.

(** [os.path.dirname] *)
Definition dirname (p : string) : string :=
  let head := String.concat "" (map (fun comp => comp +:+ "/") (removelast (split_slash p))) in
  if negb (String.eqb head "") && negb (String.eqb (rstrip_slash head) "")
  then rstrip_slash head else head.


(* ===================================================================== *)
(** * The file system                                                     *)
(* ===================================================================== *)

(** A POSIX file system without symbolic links and permissions: the
    directories and regular files, by absolute path (the list of the
    names from the root, [[]] for the root itself), and the working
    directory of the process. *)
Inductive node : Type :=
| Dir
| File (data : list byte).

Record filesystem : Type := mkFilesystem {
  nodes : gmap (list string) node;
  cwd : list string
}.

(** The root is always there. *)
Definition node_at (fs : filesystem) (k : list string) : option node :=
  match k with
  | [] => Some Dir
  | _ => nodes fs !! k
  end.

Definition add_node (k : list string) (n : node) (fs : filesystem) : filesystem :=
  {| nodes := <[k := n]> (nodes fs); cwd := cwd fs |}.

(** Where the lookup of a path starts, and where one name leads from a
    directory. *)
Definition start (fs : filesystem) (path : string) : list string :=
  if startswith "/" path then [] else cwd fs.

Definition step (cur : list string) (name : string) : list string :=
  if String.eqb name "" || String.eqb name "." then cur
  else if String.eqb name ".." then removelast cur
  else (cur ++ [name])%list.

(** Path resolution: every name is looked up in a directory that exists. *)
Fixpoint walk (fs : filesystem) (cur : list string) (names : list string)
  : result (list string) :=
  match names with
  | [] => Ok cur
  | name :: names' =>
      match node_at fs cur with
      | Some Dir => walk fs (step cur name) names'
      | Some (File _) => Raise NotADirectoryError
      | None => Raise FileNotFoundError
      end
  end.

Definition resolve (path : string) (fs : filesystem) : result (list string) :=
  if String.eqb path "" then Raise FileNotFoundError
  else walk fs (start fs path) (split_slash path).

(** [os.path.isdir] *)
Definition isdir (path : string) (fs : filesystem) : bool :=
  match resolve path fs with
  | Ok k => match node_at fs k with
            | Some Dir => true
            | _ => false
            end
  | Raise _ => false
  end.

(** [os.makedirs(name, exist_ok=True)]: the directories of [name] that are
    missing are made, one after the other; a directory that is there is
    left as it is, a regular file in the way is an error. *)
Fixpoint makedirs_from (fs : filesystem) (cur : list string) (names : list string)
  : result filesystem :=
  match node_at fs cur with
  | None => Raise FileNotFoundError
  | Some (File _) =>
      Raise (match names with
             | [] => FileExistsError
             | _ => NotADirectoryError
             end)
  | Some Dir =>
      match names with
      | [] => Ok fs
      | name :: names' =>
          let next := step cur name in
          match node_at fs next with
          | Some _ => makedirs_from fs next names'
          | None => makedirs_from (add_node next Dir fs) next names'
          end
      end
  end.

Definition makedirs (name : string) (fs : filesystem) : result filesystem :=
  if String.eqb name "" then Raise FileNotFoundError
  else makedirs_from fs (start fs name) (split_slash name).

(** [open(filename, 'w')] and [open(filename, 'wb')]: the file is made, or
    emptied when it is there.  The file object is the path of the file.
    A name that ends in a slash is refused as a directory before its last
    component is looked up. *)
Definition open_write (filename : string) (fs : filesystem)
  : result (list string * filesystem) :=
  if String.eqb filename "" then Raise FileNotFoundError
  else
    let names := split_slash filename in
    d ← walk fs (start fs filename) (removelast names);
    let name := List.last names "" in
    if String.eqb name "" then Raise IsADirectoryError
    else
      match node_at fs d with
      | None => Raise FileNotFoundError
      | Some (File _) => Raise NotADirectoryError
      | Some Dir =>
          if String.eqb name "." || String.eqb name ".."
          then Raise IsADirectoryError
          else match node_at fs (d ++ [name])%list with
               | Some Dir => Raise IsADirectoryError
               | _ => Ok ((d ++ [name])%list, add_node (d ++ [name])%list (File []) fs)
               end
      end.

(** [f.write(data)] on a file opened for writing. *)
Definition file_write (f : list string) (data : list byte) (fs : filesystem)
  : filesystem :=
  match nodes fs !! f with
  | Some (File old) => add_node f (File (old ++ data)%list) fs
  | _ => fs
  end.

(** [open(filename)] and [open(filename, 'rb')]: the file object is what
    is left to read. *)
Definition open_read (filename : string) (fs : filesystem) : result (list byte) :=
  k ← resolve filename fs;
  match node_at fs k with
  | Some (File data) => Ok data
  | Some Dir => Raise IsADirectoryError
  | None => Raise FileNotFoundError
  end.

(** [f.read(size)]: the bytes read and the file object after. *)
Definition file_read (size : nat) (f : list byte) : list byte * list byte :=
  (take size f, drop size f).

(* ===================================================================== *)
(** * The libraries behind the wrappers                                   *)
(* ===================================================================== *)

(** [json.dump(data, f, **kw)] writes the text it encodes [data] to;
    [json.load(f)] decodes what it reads. *)
Class Json : Type := {
  json_dumps : pyval -> gmap string pyval -> result (list byte);
  json_loads : list byte -> result pyval
}.

(** [pickle.dump(obj, f, **kw)] and [pickle.load(f)]. *)
Class Pickle : Type := {
  pickle_dumps : pyval -> gmap string pyval -> result (list byte);
  pickle_loads : list byte -> result pyval
}.

(** [msgpack.pack(o, f)] and [msgpack.unpack(f)]. *)
Class Msgpack : Type := {
  msgpack_packb : pyval -> result (list byte);
  msgpack_unpackb : list byte -> result pyval
}.

(** [df.to_csv(filename, **kw)] and [pd.read_csv(filename, **kw)] are
    given the file name: pandas opens the file itself, as its keywords say
    ([mode], [compression], [encoding], ...).  What they do to the file
    system is theirs. *)
Class Pandas : Type := {
  DataFrame : Type;
  df_to_csv : DataFrame -> string -> gmap string pyval -> filesystem
              -> result filesystem;
  pd_read_csv : string -> gmap string pyval -> filesystem -> result DataFrame
}.

(** [hashlib.md5()]: the hash object, [update] and [digest]. *)
Class Hashlib : Type := {
  md5_state : Type;
  md5_new : md5_state;
  md5_update : md5_state -> list byte -> md5_state;
  md5_digest : md5_state -> list byte
}.

(** What the documentation of [hashlib] says of [update]: "repeated calls
    are equivalent to a single call with the concatenation of all the
    arguments". *)
Class HashlibLaws (H : Hashlib) : Prop := {
  md5_update_nil : forall h, md5_update h [] = h;
  md5_update_app : forall h a b,
      md5_update (md5_update h a) b = md5_update h (a ++ b)%list
}.

(** [hexdigest()]: the digest, two lower-case hexadecimal digits a byte. *)
Definition hex_digit (n : N) : ascii :=
  if (n <? 10)%N then ascii_of_N (48 + n) else ascii_of_N (87 + n).

Fixpoint hex_lower (bs : list byte) : string :=
  match bs with
  | [] => EmptyString
  | b :: bs' =>
      let n := Byte.to_N b in
      String (hex_digit (n / 16)) (String (hex_digit (n mod 16)) (hex_lower bs'))
  end.

Definition md5_hexdigest `{Hashlib} (h : md5_state) : string :=
  hex_lower (md5_digest h).

Definition inspect {A : Type} (a : A) : {b : A | a = b} := exist _ a eq_refl.

(* ===================================================================== *)
(** * rutils/base/fileio.py                                               *)
(* ===================================================================== *)

Module fileio.

Definition make_parent_dir (path : string) (fs : filesystem) : result filesystem :=
  let parent_dir := dirname (normpath path) in
  makedirs parent_dir fs.

Definition write (out : string) (filename : string) (fs : filesystem)
  : result filesystem :=
  fs ← make_parent_dir filename fs;
  '(f, fs) ← open_write filename fs;
  Ok (file_write f (list_byte_of_string out) fs).

Definition json_load `{Json} (filename : string) (fs : filesystem) : result pyval :=
  f ← open_read filename fs;
  data ← json_loads f;
  Ok data.

Definition json_dump `{Json} (data : pyval) (filename : string)
    (kw : gmap string pyval) (fs : filesystem) : result filesystem :=
  fs ← make_parent_dir filename fs;
  '(f, fs) ← open_write filename fs;
  text ← json_dumps data kw;
  Ok (file_write f text fs).

Definition read_tsv `{Pandas} (filename : string) (kw : gmap string pyval)
    (fs : filesystem) : result DataFrame :=
  let _kw : gmap string pyval :=
    {[ "sep" := PyStr (String (ascii_of_nat 9) EmptyString); "header" := PyNum 0 ]} in
  let _kw := dict_update _kw kw in
  df ← pd_read_csv filename _kw fs;
  Ok df.

Definition to_tsv `{Pandas} (df : DataFrame) (filename : string)
    (kw : gmap string pyval) (fs : filesystem) : result filesystem :=
  fs ← make_parent_dir filename fs;
  let _kw : gmap string pyval :=
    {[ "sep" := PyStr (String (ascii_of_nat 9) EmptyString); "index" := PyBool false ]} in
  let _kw := dict_update _kw kw in
  df_to_csv df filename _kw fs.

Definition pickle_load `{Pickle} (filename : string) (fs : filesystem) : result pyval :=
  f ← open_read filename fs;
  obj ← pickle_loads f;
  Ok obj.

Definition pickle_dump `{Pickle} (obj : pyval) (filename : string)
    (kw : gmap string pyval) (fs : filesystem) : result filesystem :=
  fs ← make_parent_dir filename fs;
  '(f, fs) ← open_write filename fs;
  data ← pickle_dumps obj kw;
  Ok (file_write f data fs).

Definition pack_msgpack `{Msgpack} (o : pyval) (filename : string)
    (fs : filesystem) : result filesystem :=
  fs ← make_parent_dir filename fs;
  '(f, fs) ← open_write filename fs;
  data ← msgpack_packb o;
  Ok (file_write f data fs).

Definition unpack_msgpack `{Msgpack} (filename : string) (fs : filesystem)
  : result pyval :=
  f ← open_read filename fs;
  msgpack_unpackb f.

Section Md5.

Context `{Hashlib}.

(** [for chunk in iter(lambda: f.read(4096), b''): hash_md5.update(chunk)] *)
Equations? md5_chunks (hash_md5 : md5_state) (f : list byte) : md5_state
  by wf (length f) lt :=
  md5_chunks hash_md5 f with inspect (file_read 4096 f) := {
    | exist _ ([], _) _ => hash_md5
    | exist _ (b :: chunk, f') _ =>
        md5_chunks (md5_update hash_md5 (b :: chunk)) f' }.
Proof.
  destruct f as [|b0 f]; [discriminate|].
  rewrite length_drop. simpl. lia.
Defined.

Definition md5 (filename : string) (fs : filesystem) : result string :=
  let hash_md5 := md5_new in
  f ← open_read filename fs;
  let hash_md5 := md5_chunks hash_md5 f in
  Ok (md5_hexdigest hash_md5).

End Md5.

End fileio.

(* ===================================================================== *)
(** * rutils/base/mplhelper.py                                            *)
(* ===================================================================== *)

Module mplhelper.

(** A bar of a bar chart ([matplotlib.patches.Rectangle]). *)
Record Rectangle : Type := mkRectangle {
  get_x : Q;
  get_width : Q;
  get_height : Q
}.

(** What [ax.text] and [ax.annotate] add to an axes: the positional
    arguments and the keyword arguments of the call.  The call is
    recorded as it is made; which keywords matplotlib takes is not
    described. *)
Inductive artist : Type :=
| Text (x y : Q) (s : string) (kw : gmap string pyval)
| Annotation (s : string) (kw : gmap string pyval).

Record Axes : Type := mkAxes {
  get_ylim : Q * Q;
  artists : list artist
}.

(** The pyplot state: the axes objects, by reference, and the current
    axes ([plt.gca()]).  Two references can be equal, so a list of axes
    can name one object twice. *)
Record pyplot : Type := mkPyplot {
  axes : nat -> Axes;
  gca : nat
}.

Definition update_axes (ax : nat) (f : Axes -> Axes) (plt : pyplot) : pyplot :=
  {| axes := fun i => if Nat.eqb i ax then f (axes plt i) else axes plt i;
     gca := gca plt |}.

Definition add_artist (ax : nat) (a : artist) (plt : pyplot) : pyplot :=
  update_axes ax (fun A => {| get_ylim := get_ylim A; artists := artists A ++ [a] |}) plt.

(** [ax.set_ylim(bottom, top)] *)
Definition set_ylim (ax : nat) (bottom top : Q) (plt : pyplot) : pyplot :=
  update_axes ax (fun A => {| get_ylim := (bottom, top); artists := artists A |}) plt.

(** [if ax is None: ax = plt.gca()] *)
Definition axes_or_current (ax : option nat) (plt : pyplot) : nat :=
  match ax with
  | None => gca plt
  | Some a => a
  end.

Definition autotext (x y : Q) (s : string) (ax : option nat)
    (kwargs : gmap string pyval) (plt : pyplot) : result pyplot :=
  let ax := axes_or_current ax plt in
  let ha := if Qeq_bool x 0.5 then "center"
            else (if Qlt_bool x 0.5 then "left" else "right") in
  let va := if Qeq_bool y 0.5 then "center"
            else (if Qlt_bool y 0.5 then "bottom" else "top") in
  let text_kw : gmap string pyval :=
    {[ "xycoords" := PyStr "axes fraction"; "ha" := PyStr ha; "va" := PyStr va ]} in
  let text_kw := dict_update text_kw kwargs in
  kw ← call_kw [("xy", PyTuple [PyNum x; PyNum y])] text_kw;
  Ok (add_artist ax (Annotation s kw) plt).

(** The body of the loop of [autolabel], for one bar. *)
Definition autolabel_rect `{StrFormat} (xpos formatstr : string) (ax : nat)
    (ylim : option (Q * Q)) (kwargs : gmap string pyval)
    (ha : gmap string string) (offset : gmap string Q)
    (plt : pyplot) (rect : Rectangle) : result pyplot :=
  let height := get_height rect in
  let va := if Qle_bool 0.0 height then "bottom" else "top" in
  let '(height, va) :=
    match ylim with
    | Some (lo, _) => if Qlt_bool height lo then (lo, "bottom") else (height, va)
    | None => (height, va)
    end in
  let '(height, va) :=
    match ylim with
    | Some (_, hi) => if Qlt_bool hi height then (hi, "top") else (height, va)
    | None => (height, va)
    end in
  off ← getitem offset xpos;
  let x := round64 (get_x rect + round64 (get_width rect * off)) in
  let y := height in
  label ← str_format formatstr height;
  h ← getitem ha xpos;
  kw ← call_kw [("ha", PyStr h); ("va", PyStr va)] kwargs;
  Ok (add_artist ax (Text x y label kw) plt).

(** [for rect in rects: ...] *)
Fixpoint for_each {A S : Type} (body : S -> A -> result S) (l : list A) (s : S)
  : result S :=
  match l with
  | [] => Ok s
  | a :: l' => s' ← body s a; for_each body l' s'
  end.

Definition autolabel `{StrFormat} (rects : list Rectangle) (xpos formatstr : string)
    (ax : option nat) (ylim : option (Q * Q)) (kwargs : gmap string pyval)
    (plt : pyplot) : result pyplot :=
  let xpos := lower xpos in
  let ha : gmap string string :=
    {[ "center" := "center"; "right" := "left"; "left" := "right" ]} in
  let offset : gmap string Q :=
    {[ "center" := round64 0.5; "right" := round64 0.57;
       "left" := round64 0.43 ]} in
  let ax := axes_or_current ax plt in
  for_each (autolabel_rect xpos formatstr ax ylim kwargs ha offset) rects plt.

Definition set_ylim_symm (ax : nat) (plt : pyplot) : pyplot :=
  let '(yb, yt) := get_ylim (axes plt ax) in
  let yabsmax := py_max (Qabs yb) [Qabs yt] in
  set_ylim ax (- yabsmax) yabsmax plt.

Definition set_sharey_symm (axs : list nat) (plt : pyplot) : pyplot :=
  let yabsmax :=
    fold_left (fun yabsmax ax =>
                 let '(yb, yt) := get_ylim (axes plt ax) in
                 py_max (Qabs yb) [Qabs yt; yabsmax]) axs 0%Q in
  fold_left (fun plt ax => set_ylim ax (- yabsmax) yabsmax plt) axs plt.

(** [plt.tight_layout()], [plt.savefig(filename, **kwargs)] and
    [plt.close()].  [plt.savefig] is given the file name: matplotlib
    chooses the format and the file it writes (it adds an extension to a
    name without one), so what it does to the file system is its own. *)
Class Matplotlib : Type := {
  plt_tight_layout : pyplot -> pyplot;
  plt_savefig : string -> gmap string pyval -> pyplot -> filesystem
                -> result filesystem;
  plt_close : pyplot -> pyplot
}.

Definition savefig `{Matplotlib} (filename : string) (kwargs : gmap string pyval)
    (fs : filesystem) (plt : pyplot) : result (filesystem * pyplot) :=
  fs ← fileio.make_parent_dir filename fs;
  let tight_layout := default (PyBool false) (kwargs !! "tight_layout") in
  let kwargs := delete "tight_layout" kwargs in
  let plt := if truthy tight_layout then plt_tight_layout plt else plt in
  fs ← plt_savefig filename kwargs plt fs;
  let plt := plt_close plt in
  Ok (fs, plt).

(** Modelled from the spec: [rutils.base.stats.neglog10], the "numeric
    helper supplying the negative-log10 transform", is not among the
    sources.  It is a parameter, and nothing is assumed of it. *)
Class Stats : Type := { neglog10 : Q -> result Q }.

(** The horizontal lines of the axes, by reference: the keyword arguments
    of each call of [ax.axhline], in order. *)
Definition ax_axhline (ax : nat) (kw : gmap string pyval)
    (lines : nat -> list (gmap string pyval)) : nat -> list (gmap string pyval) :=
  fun i => if Nat.eqb i ax then (lines i ++ [kw])%list else lines i.

Definition ax_axhlines_alpha `{Stats} (a : Q) (ax : option nat)
    (kwargs : gmap string pyval) (plt : pyplot)
    (lines : nat -> list (gmap string pyval))
  : result (nat -> list (gmap string pyval)) :=
  let ax := axes_or_current ax plt in
  log10a ← neglog10 a;
  let '(pos, neg) := (log10a, (- log10a)%Q) in
  kw ← call_kw [("y", PyNum pos)] kwargs;
  let lines := ax_axhline ax kw lines in
  kw ← call_kw [("y", PyNum neg)] kwargs;
  Ok (ax_axhline ax kw lines).

End mplhelper.

(* ===================================================================== *)
(** * Vocabulary of the properties                                        *)
(* ===================================================================== *)

Import fileio.
Import mplhelper.

(** The alignment [autotext] computes from a coordinate: [low] below one
    half, [high] above, ["center"] at one half. *)
Definition auto_align (low high : string) (c : Q) : string :=
  if Qeq_bool c 0.5 then "center" else (if Qlt_bool c 0.5 then low else high).

(** The text one pass of the loop of [autolabel] adds for a bar: placed at
    the height of the bar or at the limit the height was clamped to, and
    labelled with the format template applied to that same value. *)
Definition bar_label `{StrFormat} (xpos formatstr : string) (ylim : option (Q * Q))
    (kwargs : gmap string pyval) (ha : gmap string string)
    (offset : gmap string Q) (rect : Rectangle) (a : artist) : Prop :=
  exists (off y : Q) (h va label : string),
    a = Text (round64 (get_x rect + round64 (get_width rect * off))) y label
             (<["ha" := PyStr h]> (<["va" := PyStr va]> kwargs)) /\
    offset !! xpos = Some off /\ ha !! xpos = Some h /\
    kwargs !! "ha" = None /\ kwargs !! "va" = None /\
    str_format formatstr y = Ok label /\
    match ylim with
    | None =>
        y = get_height rect /\
        va = (if Qle_bool 0.0 (get_height rect) then "bottom" else "top")
    | Some (lo, hi) =>
        ((hi < get_height rect)%Q -> y = hi /\ va = "top") /\
        ((get_height rect < lo)%Q -> (lo <= hi)%Q -> y = lo /\ va = "bottom") /\
        ((lo <= get_height rect)%Q -> (get_height rect <= hi)%Q ->
         y = get_height rect /\
         va = (if Qle_bool 0.0 (get_height rect) then "bottom" else "top"))
    end.

(** The first loop of [set_sharey_symm]: the running maximum. *)
Definition sharey_absmax (plt : pyplot) (axs : list nat) : Q :=
  fold_left (fun yabsmax ax =>
               let '(yb, yt) := get_ylim (axes plt ax) in
               py_max (Qabs yb) [Qabs yt; yabsmax]) axs 0%Q.





(** The digest of a sequence of bytes hashed in one pass, in lower-case
    hexadecimal. *)
Definition md5_of_bytes `{Hashlib} (data : list byte) : string :=
  md5_hexdigest (md5_update md5_new data).

Definition lower_hex_digit (c : ascii) : bool :=
  (Ascii.leb "0" c && Ascii.leb c "9") || (Ascii.leb "a" c && Ascii.leb c "f").

(** A path without a slash: a bare file name. *)
Fixpoint no_slash (path : string) : bool :=
  match path with
  | EmptyString => true
  | String c rest => negb (Ascii.eqb c "/") && no_slash rest
  end.

(** What a save leaves behind: one regular file [f] holding [data], where
    there was no directory; apart from [f], every node that was there is
    there unchanged, and a node that was not there is a directory. *)
Definition saves_one_file (fs fs' : filesystem) (data : list byte) : Prop :=
  exists f,
    node_at fs' f = Some (File data) /\
    node_at fs f <> Some Dir /\
    cwd fs' = cwd fs /\
    (forall k n, k <> f -> node_at fs k = Some n -> node_at fs' k = Some n) /\
    (forall k n, k <> f -> node_at fs' k = Some n ->
                 node_at fs k = Some n \/ (node_at fs k = None /\ n = Dir)).

(** A hash object that keeps the arguments of the calls of [update], in
    order; and the calls [md5] makes on a file. *)
Definition trace_hashlib : Hashlib :=
  {| md5_state := list (list byte);
     md5_new := [];
     md5_update h chunk := (h ++ [chunk])%list;
     md5_digest h := concat h |}.

Definition md5_update_calls (f : list byte) : list (list byte) :=
  md5_chunks (H := trace_hashlib) [] f.

(** The two clamping steps of [autolabel]: the height the label is put at
    and its vertical alignment. *)
Definition clamp_label (ylim : option (Q * Q)) (height : Q) : Q * string :=
  let va := if Qle_bool 0.0 height then "bottom" else "top" in
  let '(height, va) :=
    match ylim with
    | Some (lo, _) => if Qlt_bool height lo then (lo, "bottom") else (height, va)
    | None => (height, va)
    end in
  match ylim with
  | Some (_, hi) => if Qlt_bool hi height then (hi, "top") else (height, va)
  | None => (height, va)
  end.

(* ===================================================================== *)
(** * Instances and states to run examples with                           *)
(* ===================================================================== *)

(** A file system to run examples in: the working directory [/work] and
    nothing else. *)
Definition work_fs : filesystem :=
  {| nodes := {[ ["work"] := Dir ]}; cwd := ["work"] |}.

(** Libraries to run examples with: a codec that takes a string and
    stores its bytes, tables that are their text, written to the file of
    the given name, and figures saved as an empty image in that file. *)
Definition str_dumps (v : pyval) : result (list byte) :=
  match v with
  | PyStr s => Ok (list_byte_of_string s)
  | _ => Raise TypeError
  end.

Definition str_loads (data : list byte) : result pyval :=
  Ok (PyStr (string_of_list_byte data)).

Definition str_json : Json :=
  {| json_dumps v _ := str_dumps v; json_loads := str_loads |}.

Definition str_pickle : Pickle :=
  {| pickle_dumps v _ := str_dumps v; pickle_loads := str_loads |}.

Definition str_msgpack : Msgpack :=
  {| msgpack_packb := str_dumps; msgpack_unpackb := str_loads |}.

Definition str_pandas : Pandas :=
  {| DataFrame := string;
     df_to_csv df filename _ fs :=
       '(f, fs) ← open_write filename fs;
       Ok (file_write f (list_byte_of_string df) fs);
     pd_read_csv filename _ fs :=
       data ← open_read filename fs;
       Ok (string_of_list_byte data) |}.

Definition blank_matplotlib : Matplotlib :=
  {| plt_tight_layout plt := plt;
     plt_savefig filename _ _ fs :=
       '(f, fs) ← open_write filename fs;
       Ok (file_write f [] fs);
     plt_close plt := plt |}.

(** A hash to run examples with: the sum of the bytes modulo 256. *)
Definition sum_hashlib : Hashlib :=
  {| md5_state := N;
     md5_new := 0%N;
     md5_update h data := fold_left (fun a b => ((a + Byte.to_N b) mod 256)%N) data h;
     md5_digest h := [default x00 (Byte.of_N h)] |}.

(** A formatter to run examples with that takes every number: a number
    is rendered as numerator/denominator. *)
Definition fraction_format : StrFormat :=
  {| str_format template q :=
       subst_braces template
         (Some (pretty (Qnum q) +:+ "/" +:+ pretty (Zpos (Qden q)))) |}.

(** A [neglog10] to run examples with: a table of three levels, to five
    decimal places. *)
Definition table_stats : Stats :=
  {| neglog10 a :=
       if Qeq_bool a 0.05 then Ok 1.30103%Q
       else if Qeq_bool a 0.01 then Ok 2%Q
       else if Qeq_bool a 0.1 then Ok 1%Q
       else Raise ValueError |}.

(** MessagePack as msgpack-python packs and unpacks it with its defaults
    ([use_bin_type=True], [raw=False], [strict_map_key=True]), on a part
    of the format: [None], the booleans, the integers from 0 to 127
    (positive fixint), the strings of less than 32 bytes (fixstr) and the
    maps of less than 16 entries of these (fixmap).  The unpacker refuses
    a map key that is not a string, and bytes left over.  A value outside
    this part is not described: the instance raises on it. *)
Definition small_pack_scalar (v : pyval) : result (list byte) :=
  match v with
  | PyNone => Ok [xc0]
  | PyBool false => Ok [xc2]
  | PyBool true => Ok [xc3]
  | PyNum q =>
      if Pos.eqb (Qden q) 1 && (0 <=? Qnum q)%Z && (Qnum q <? 128)%Z
      then Ok [default x00 (Byte.of_N (Z.to_N (Qnum q)))]
      else Raise TypeError
  | PyStr s =>
      if (String.length s <? 32)%nat
      then Ok (default x00 (Byte.of_N (160 + N.of_nat (String.length s)))
               :: list_byte_of_string s)
      else Raise TypeError
  | _ => Raise TypeError
  end.

Fixpoint small_pack_items (items : list (pyval * pyval)) : result (list byte) :=
  match items with
  | [] => Ok []
  | (k, v) :: items' =>
      kb ← small_pack_scalar k;
      vb ← small_pack_scalar v;
      rest ← small_pack_items items';
      Ok (kb ++ vb ++ rest)%list
  end.

Definition small_packb (v : pyval) : result (list byte) :=
  match v with
  | PyDict items =>
      if (length items <? 16)%nat
      then data ← small_pack_items items;
           Ok (default x00 (Byte.of_N (128 + N.of_nat (length items))) :: data)
      else Raise TypeError
  | _ => small_pack_scalar v
  end.

Definition small_unpack_scalar (data : list byte) : result (pyval * list byte) :=
  match data with
  | [] => Raise ValueError
  | b :: rest =>
      let n := Byte.to_N b in
      if (n <? 128)%N then Ok (PyNum (inject_Z (Z.of_N n)), rest)
      else if (n =? 192)%N then Ok (PyNone, rest)
      else if (n =? 194)%N then Ok (PyBool false, rest)
      else if (n =? 195)%N then Ok (PyBool true, rest)
      else if (160 <=? n)%N && (n <? 192)%N then
        let len := N.to_nat (n - 160) in
        if (length rest <? len)%nat then Raise ValueError
        else Ok (PyStr (string_of_list_byte (take len rest)), drop len rest)
      else Raise ValueError
  end.

Fixpoint small_unpack_items (n : nat) (data : list byte)
  : result (list (pyval * pyval) * list byte) :=
  match n with
  | O => Ok ([], data)
  | S n' =>
      '(k, rest) ← small_unpack_scalar data;
      match k with
      | PyStr _ =>
          '(v, rest) ← small_unpack_scalar rest;
          '(items, rest) ← small_unpack_items n' rest;
          Ok ((k, v) :: items, rest)
      | _ => Raise ValueError
      end
  end.

Definition small_unpackb (data : list byte) : result pyval :=
  '(v, rest) ←
    match data with
    | b :: items =>
        let n := Byte.to_N b in
        if (128 <=? n)%N && (n <? 144)%N then
          '(items, rest) ← small_unpack_items (N.to_nat (n - 128)) items;
          Ok (PyDict items, rest)
        else small_unpack_scalar data
    | [] => Raise ValueError
    end;
  match rest with
  | [] => Ok v
  | _ => Raise ValueError
  end.

Definition small_msgpack : Msgpack :=
  {| msgpack_packb := small_packb; msgpack_unpackb := small_unpackb |}.

(* ===================================================================== *)
(** * Properties of the Python primitives                                 *)
(* ===================================================================== *)

Lemma Qlt_bool_iff (a b : Q) : Qlt_bool a b = true <-> (a < b)%Q.
Proof.
  unfold Qlt_bool. rewrite negb_true_iff, <- not_true_iff_false, Qle_bool_iff.
  split; [apply Qnot_le_lt | apply Qlt_not_le].
Qed.

Lemma Qlt_bool_false_iff (a b : Q) : Qlt_bool a b = false <-> (b <= a)%Q.
Proof.
  unfold Qlt_bool. rewrite negb_false_iff. apply Qle_bool_iff.
Qed.



Lemma bind_Ok {A B : Type} (r : result A) (f : A -> result B) (b : B) :
  r ≫= f = Ok b -> exists a, r = Ok a /\ f a = Ok b.
Proof. destruct r as [a|e]; simpl; [eauto | discriminate]. Qed.

Lemma getitem_Ok {V : Type} (d : gmap string V) (k : string) (v : V) :
  getitem d k = Ok v <-> d !! k = Some v.
Proof.
  unfold getitem. destruct (d !! k); split; intros E; inversion E; reflexivity.
Qed.

(** One explicit keyword: the call goes through exactly when [star] does
    not give it too. *)
Lemma call_kw_one (k : string) (v : pyval) (star : gmap string pyval) :
  star !! k = None -> call_kw [(k, v)] star = Ok (<[k := v]> star).
Proof. intros E. simpl. now rewrite E. Qed.

Lemma call_kw_two (k1 k2 : string) (v1 v2 : pyval) (star : gmap string pyval) :
  star !! k1 = None -> star !! k2 = None ->
  call_kw [(k1, v1); (k2, v2)] star = Ok (<[k1 := v1]> (<[k2 := v2]> star)).
Proof. intros E1 E2. simpl. now rewrite E1, E2. Qed.

Lemma call_kw_two_Ok (k1 k2 : string) (v1 v2 : pyval) (star kw : gmap string pyval) :
  call_kw [(k1, v1); (k2, v2)] star = Ok kw ->
  star !! k1 = None /\ star !! k2 = None /\ kw = <[k1 := v1]> (<[k2 := v2]> star).
Proof.
  simpl. destruct (star !! k1); [discriminate|].
  destruct (star !! k2); [discriminate|]. simpl.
  intros E. inversion E. auto.
Qed.

(* ===================================================================== *)
(** * autotext                                                            *)
(* ===================================================================== *)

Lemma auto_align_cases (low high : string) (c : Q) :
  ((c == 0.5)%Q -> auto_align low high c = "center") /\
  ((c < 0.5)%Q -> auto_align low high c = low) /\
  ((0.5 < c)%Q -> auto_align low high c = high).
Proof.
  unfold auto_align. repeat split; intros Hc.
  - apply Qeq_bool_iff in Hc. now rewrite Hc.
  - destruct (Qeq_bool c 0.5) eqn:E.
    + apply Qeq_bool_iff in E. rewrite E in Hc. now apply Qlt_irrefl in Hc.
    + apply Qlt_bool_iff in Hc. now rewrite Hc.
  - destruct (Qeq_bool c 0.5) eqn:E.
    + apply Qeq_bool_iff in E. rewrite E in Hc. now apply Qlt_irrefl in Hc.
    + destruct (Qlt_bool c 0.5) eqn:E'; [|reflexivity].
      apply Qlt_bool_iff in E'. exfalso.
      apply (Qlt_irrefl c). now apply Qlt_trans with 0.5%Q.
Qed.

(** The call [autotext] makes, when the caller gives no [xy] keyword. *)
Lemma autotext_call (x y : Q) (s : string) (ax : option nat)
    (kwargs : gmap string pyval) (plt : pyplot) :
  kwargs !! "xy" = None ->
  autotext x y s ax kwargs plt =
  Ok (add_artist (axes_or_current ax plt)
        (Annotation s
           (<["xy" := PyTuple [PyNum x; PyNum y]]>
              (kwargs ∪ {[ "xycoords" := PyStr "axes fraction";
                           "ha" := PyStr (auto_align "left" "right" x);
                           "va" := PyStr (auto_align "bottom" "top" y) ]})))
        plt).
Proof.
  intros Hxy. unfold autotext, dict_update.
  rewrite call_kw_one; [reflexivity|].
  apply lookup_union_None. split; [assumption|]. reflexivity.
Qed.

(** A keyword other than [xy] reaches [ax.annotate] with the caller's
    value when the caller gives one, with the automatic one otherwise. *)
Lemma autotext_kw_lookup (k : string) (x y : Q) (kwargs auto : gmap string pyval) :
  k <> "xy" ->
  (<["xy" := PyTuple [PyNum x; PyNum y]]> (kwargs ∪ auto)) !! k =
  match kwargs !! k with
  | Some v => Some v
  | None => auto !! k
  end.
Proof.
  intros Hk. rewrite lookup_insert_ne by congruence.
  rewrite lookup_union. destruct (kwargs !! k), (auto !! k); reflexivity.
Qed.

(** C4. For every [x] and [y], [autotext] annotates with horizontal
    alignment [center] if [x == 0.5], [left] if [x < 0.5], [right] if
    [x > 0.5], and vertical alignment [center] if [y == 0.5], [bottom] if
    [y < 0.5], [top] if [y > 0.5] (the caller passing no alignment of
    their own); in particular (0.5, 0.5) gives center/center, (0.0, 1.0)
    gives left/top and (1.0, 0.0) gives right/bottom. *)
Theorem autotext_alignment :
  (forall (x y : Q) (s : string) (ax : option nat)
          (kwargs : gmap string pyval) (plt : pyplot),
      kwargs !! "xy" = None -> kwargs !! "ha" = None -> kwargs !! "va" = None ->
      exists kw,
        autotext x y s ax kwargs plt =
          Ok (add_artist (axes_or_current ax plt) (Annotation s kw) plt) /\
        ((x == 0.5)%Q -> kw !! "ha" = Some (PyStr "center")) /\
        ((x < 0.5)%Q -> kw !! "ha" = Some (PyStr "left")) /\
        ((0.5 < x)%Q -> kw !! "ha" = Some (PyStr "right")) /\
        ((y == 0.5)%Q -> kw !! "va" = Some (PyStr "center")) /\
        ((y < 0.5)%Q -> kw !! "va" = Some (PyStr "bottom")) /\
        ((0.5 < y)%Q -> kw !! "va" = Some (PyStr "top"))) /\
  (forall (s : string) (ax : option nat) (plt : pyplot),
      exists kw,
        autotext 0.5 0.5 s ax ∅ plt =
          Ok (add_artist (axes_or_current ax plt) (Annotation s kw) plt) /\
        kw !! "ha" = Some (PyStr "center") /\ kw !! "va" = Some (PyStr "center")) /\
  (forall (s : string) (ax : option nat) (plt : pyplot),
      exists kw,
        autotext 0.0 1.0 s ax ∅ plt =
          Ok (add_artist (axes_or_current ax plt) (Annotation s kw) plt) /\
        kw !! "ha" = Some (PyStr "left") /\ kw !! "va" = Some (PyStr "top")) /\
  (forall (s : string) (ax : option nat) (plt : pyplot),
      exists kw,
        autotext 1.0 0.0 s ax ∅ plt =
          Ok (add_artist (axes_or_current ax plt) (Annotation s kw) plt) /\
        kw !! "ha" = Some (PyStr "right") /\ kw !! "va" = Some (PyStr "bottom")).
Proof.
  split; [|repeat split; intros s ax plt; eexists; (split; [reflexivity|]);
           split; reflexivity].
  intros x y s ax kwargs plt Hxy Hha Hva.
  eexists. split; [now apply autotext_call|].
  destruct (auto_align_cases "left" "right" x) as (Hc & Hl & Hr).
  destruct (auto_align_cases "bottom" "top" y) as (Hc' & Hl' & Hr').
  repeat split; intros Hq;
    rewrite autotext_kw_lookup by discriminate;
    rewrite ?Hha, ?Hva; simplify_map_eq; f_equal; f_equal; auto.
Qed.

Lemma autotext_alignment_witness :
  exists kw,
    autotext (1 # 4) (3 # 4) "label" None {[ "color" := PyStr "red" ]}
             {| axes := fun _ => mkAxes (0, 1)%Q []; gca := 0 |} =
      Ok (add_artist 0 (Annotation "label" kw)
            {| axes := fun _ => mkAxes (0, 1)%Q []; gca := 0 |}) /\
    kw !! "ha" = Some (PyStr "left") /\ kw !! "va" = Some (PyStr "top").
Proof.
  destruct (proj1 autotext_alignment (1 # 4) (3 # 4) "label" None
              {[ "color" := PyStr "red" ]}
              {| axes := fun _ => mkAxes (0, 1)%Q []; gca := 0 |})
    as (kw & Hcall & _ & Hl & _ & _ & _ & Ht); try reflexivity.
  exists kw. split; [exact Hcall|]. split; [apply Hl | apply Ht]; reflexivity.
Defined.

(** C9. The caller's keyword arguments are merged after the automatic
    alignment is computed: an explicit [ha], [va] or [xycoords] reaches
    [ax.annotate] with the caller's value, in place of the automatic
    alignment and of the axes-fraction default. *)
Theorem autotext_kwargs_override (x y : Q) (s : string) (ax : option nat)
    (kwargs : gmap string pyval) (plt : pyplot) :
  kwargs !! "xy" = None ->
  exists kw,
    autotext x y s ax kwargs plt =
      Ok (add_artist (axes_or_current ax plt) (Annotation s kw) plt) /\
    (forall v, kwargs !! "ha" = Some v -> kw !! "ha" = Some v) /\
    (forall v, kwargs !! "va" = Some v -> kw !! "va" = Some v) /\
    (forall v, kwargs !! "xycoords" = Some v -> kw !! "xycoords" = Some v) /\
    (kwargs !! "xycoords" = None ->
     kw !! "xycoords" = Some (PyStr "axes fraction")).
Proof.
  intros Hxy. eexists. split; [now apply autotext_call|].
  repeat split; [intros v Hv ..|intros Hv];
    rewrite autotext_kw_lookup by discriminate; now rewrite Hv.
Qed.

Lemma autotext_kwargs_override_witness :
  exists kw,
    autotext 0 1 "note" (Some 2%nat)
             {[ "ha" := PyStr "right"; "xycoords" := PyStr "data" ]}
             {| axes := fun _ => mkAxes (0, 1)%Q []; gca := 0 |} =
      Ok (add_artist 2 (Annotation "note" kw)
            {| axes := fun _ => mkAxes (0, 1)%Q []; gca := 0 |}) /\
    kw !! "ha" = Some (PyStr "right") /\
    kw !! "xycoords" = Some (PyStr "data").
Proof.
  destruct (autotext_kwargs_override 0 1 "note" (Some 2%nat)
              {[ "ha" := PyStr "right"; "xycoords" := PyStr "data" ]}
              {| axes := fun _ => mkAxes (0, 1)%Q []; gca := 0 |})
    as (kw & Hcall & Hha & _ & Hxc & _); [reflexivity|].
  exists kw. split; [exact Hcall|]. split; [apply Hha | apply Hxc]; reflexivity.
Defined.

(* ===================================================================== *)
(** * autolabel                                                           *)
(* ===================================================================== *)

Section Autolabel.

Context `{StrFormat}.

Lemma autolabel_rect_Ok (xpos formatstr : string) (ax : nat)
    (ylim : option (Q * Q)) (kwargs : gmap string pyval)
    (ha : gmap string string) (offset : gmap string Q)
    (plt plt' : pyplot) (rect : Rectangle) :
  autolabel_rect xpos formatstr ax ylim kwargs ha offset plt rect = Ok plt' ->
  exists a, plt' = add_artist ax a plt /\
            bar_label xpos formatstr ylim kwargs ha offset rect a.
Proof.
  unfold autolabel_rect, bar_label. intros Hrun.
  set (h0 := get_height rect) in *.
  set (va0 := if Qle_bool 0.0 h0 then "bottom" else "top") in *.
  set (c1 := match ylim with
             | Some (lo, _) => if Qlt_bool h0 lo then (lo, "bottom") else (h0, va0)
             | None => (h0, va0)
             end) in *.
  destruct c1 as [h1 va1] eqn:E1.
  set (c2 := match ylim with
             | Some (_, hi) => if Qlt_bool hi h1 then (hi, "top") else (h1, va1)
             | None => (h1, va1)
             end) in *.
  destruct c2 as [h2 va2] eqn:E2.
  apply bind_Ok in Hrun as (off & Hoff & Hrun).
  apply bind_Ok in Hrun as (label & Hlabel & Hrun).
  apply bind_Ok in Hrun as (h & Hh & Hrun).
  apply bind_Ok in Hrun as (kw & Hkw & Hrun).
  apply call_kw_two_Ok in Hkw as (Hha & Hva & ->).
  apply getitem_Ok in Hoff. apply getitem_Ok in Hh.
  eexists. split; [now inversion Hrun|].
  exists off, h2, h, va2, label.
  split; [reflexivity|].
  repeat (split; [assumption|]).
  subst c1 c2. destruct ylim as [[lo hi]|].
  - destruct (Qlt_bool h0 lo) eqn:Elo; inversion E1; subst h1 va1; clear E1.
    + apply Qlt_bool_iff in Elo.
      destruct (Qlt_bool hi lo) eqn:Ehi; inversion E2; subst h2 va2; clear E2.
      * apply Qlt_bool_iff in Ehi.
        repeat split; auto; intros; exfalso; lra.
      * apply Qlt_bool_false_iff in Ehi.
        repeat split; auto; intros; exfalso; lra.
    + apply Qlt_bool_false_iff in Elo.
      destruct (Qlt_bool hi h0) eqn:Ehi; inversion E2; subst h2 va2; clear E2.
      * apply Qlt_bool_iff in Ehi.
        repeat split; auto; intros; exfalso; lra.
      * apply Qlt_bool_false_iff in Ehi.
        repeat split; auto; intros; exfalso; lra.
  - inversion E1; subst. inversion E2; subst. split; reflexivity.
Qed.

Lemma for_each_autolabel_rect (xpos formatstr : string) (ax : nat)
    (ylim : option (Q * Q)) (kwargs : gmap string pyval)
    (ha : gmap string string) (offset : gmap string Q)
    (rects : list Rectangle) (plt plt' : pyplot) :
  for_each (autolabel_rect xpos formatstr ax ylim kwargs ha offset) rects plt
    = Ok plt' ->
  exists labels,
    Forall2 (bar_label xpos formatstr ylim kwargs ha offset) rects labels /\
    plt' = fold_left (fun p a => add_artist ax a p) labels plt.
Proof.
  revert plt. induction rects as [|rect rects IH]; intros plt Hrun.
  - exists []. split; [constructor | now inversion Hrun].
  - simpl in Hrun. apply bind_Ok in Hrun as (plt1 & Hrect & Hrest).
    apply autolabel_rect_Ok in Hrect as (a & -> & Ha).
    apply IH in Hrest as (labels & Hall & ->).
    exists (a :: labels). split; [now constructor | reflexivity].
Qed.

End Autolabel.

Lemma artists_fold_add_artist (ax : nat) (labels : list artist) (plt : pyplot) :
  artists (axes (fold_left (fun p a => add_artist ax a p) labels plt) ax)
  = (artists (axes plt ax) ++ labels)%list.
Proof.
  revert plt. induction labels as [|a labels IH]; intros plt; simpl.
  - now rewrite app_nil_r.
  - rewrite IH. simpl. rewrite Nat.eqb_refl. simpl.
    now rewrite <- app_assoc.
Qed.



(** What a call of [autolabel] that returns has done: one text per bar,
    in order, added to the chosen axes. *)
Lemma autolabel_Ok `{StrFormat} (rects : list Rectangle) (xpos formatstr : string)
    (ax : option nat) (ylim : option (Q * Q)) (kwargs : gmap string pyval)
    (plt plt' : pyplot) :
  autolabel rects xpos formatstr ax ylim kwargs plt = Ok plt' ->
  exists labels,
    Forall2 (bar_label (lower xpos) formatstr ylim kwargs
               {[ "center" := "center"; "right" := "left"; "left" := "right" ]}
               {[ "center" := round64 0.5; "right" := round64 0.57;
                  "left" := round64 0.43 ]})
            rects labels /\
    artists (axes plt' (axes_or_current ax plt))
    = (artists (axes plt (axes_or_current ax plt)) ++ labels)%list.
Proof.
  unfold autolabel. intros Hrun.
  apply for_each_autolabel_rect in Hrun as (labels & Hall & ->).
  exists labels. split; [exact Hall | apply artists_fold_add_artist].
Qed.

(** C2. With limits given, a bar whose height falls outside them is
    labelled at the nearest limit, with alignment [bottom] at the lower
    limit and [top] at the upper one, and the text of the label is the
    format template applied to that limit: the clamped height, not the
    height of the bar. *)
Theorem autolabel_clamps_to_limits `{StrFormat} (rects : list Rectangle)
    (xpos formatstr : string) (ax : option nat) (lo hi : Q)
    (kwargs : gmap string pyval) (plt plt' : pyplot) :
  autolabel rects xpos formatstr ax (Some (lo, hi)) kwargs plt = Ok plt' ->
  exists labels,
    artists (axes plt' (axes_or_current ax plt))
    = (artists (axes plt (axes_or_current ax plt)) ++ labels)%list /\
    Forall2
      (fun rect a =>
         exists x y label kw,
           a = Text x y label kw /\
           ((get_height rect < lo)%Q -> (lo <= hi)%Q ->
            y = lo /\ kw !! "va" = Some (PyStr "bottom") /\
            str_format formatstr lo = Ok label /\
            (Qabs (get_height rect - lo) <= Qabs (get_height rect - hi))%Q) /\
           ((hi < get_height rect)%Q ->
            y = hi /\ kw !! "va" = Some (PyStr "top") /\
            str_format formatstr hi = Ok label /\
            ((lo <= hi)%Q ->
             (Qabs (get_height rect - hi) <= Qabs (get_height rect - lo))%Q)))
      rects labels.
Proof.
  intros Hrun. apply autolabel_Ok in Hrun as (labels & Hall & Hart).
  exists labels. split; [exact Hart|].
  eapply Forall2_impl; [exact Hall|]. clear.
  intros rect a (off & y & h & va & label & -> & _ & _ & _ & Hva & Hfmt & Hlo & Hhi & _).
  do 4 eexists. split; [reflexivity|]. split.
  - intros Hlt Hle. destruct (Hhi Hlt Hle) as [-> ->].
    repeat split; [now simplify_map_eq | assumption |].
    rewrite !Qabs_neg by lra. lra.
  - intros Hlt. destruct (Hlo Hlt) as [-> ->].
    repeat split; [now simplify_map_eq | assumption |].
    intros Hle. rewrite !Qabs_pos by lra. lra.
Qed.

Lemma autolabel_clamps_to_limits_witness :
  exists labels,
    artists (axes (add_artist 0
                     (Text 0.5 0 "0"
                        {[ "ha" := PyStr "center"; "va" := PyStr "bottom" ]})
                     {| axes := fun _ => mkAxes (0, 1)%Q []; gca := 0 |}) 0)
    = ([] ++ labels)%list /\
    Forall2
      (fun rect a =>
         exists x y label kw,
           a = Text x y label kw /\
           ((get_height rect < 0)%Q -> (0 <= 10)%Q ->
            y = 0%Q /\ kw !! "va" = Some (PyStr "bottom") /\
            str_format (StrFormat := decimal_format) "{}" 0 = Ok label /\
            (Qabs (get_height rect - 0) <= Qabs (get_height rect - 10))%Q) /\
           ((10 < get_height rect)%Q ->
            y = 10%Q /\ kw !! "va" = Some (PyStr "top") /\
            str_format (StrFormat := decimal_format) "{}" 10 = Ok label /\
            ((0 <= 10)%Q ->
             (Qabs (get_height rect - 10) <= Qabs (get_height rect - 0))%Q)))
      [mkRectangle 0 1 (-3)] labels.
Proof.
  apply (autolabel_clamps_to_limits (H := decimal_format)
           [mkRectangle 0 1 (-3)] "center" "{}" None 0 10 ∅
           {| axes := fun _ => mkAxes (0, 1)%Q []; gca := 0 |}).
  reflexivity.
Defined.

(** The claim C1 fails: with limits (0, 10) and a bar of height 15, the
    text of the label is not the template applied to 15. *)
Lemma autolabel_text_shows_height_counterexample :
  ~ (exists x label kw plt',
        autolabel (H := decimal_format) [mkRectangle 0 1 15] "center" "{}"
                  None (Some (0, 10)%Q) ∅
                  {| axes := fun _ => mkAxes (0, 20)%Q []; gca := 0 |} = Ok plt' /\
        artists (axes plt' 0) = [Text x 10 label kw] /\
        str_format (StrFormat := decimal_format) "{}" 15 = Ok label).
Proof.
  intros (x & label & kw & plt' & Hrun & Hart & Hfmt).
  vm_compute in Hrun. inversion Hrun; subst plt'; clear Hrun.
  vm_compute in Hart. vm_compute in Hfmt.
  inversion Hfmt; subst label. discriminate Hart.
Qed.

(** C1, amended.  With limits (0, 10), a bar of height 15 is labelled at
    [y = 10] with vertical alignment [top], and the text of the label is
    the format template applied to 10, the clamped height. *)
Theorem autolabel_limit_example `{StrFormat} (rect : Rectangle)
    (xpos formatstr : string) (ax : option nat)
    (kwargs : gmap string pyval) (plt plt' : pyplot) :
  (get_height rect == 15)%Q ->
  autolabel [rect] xpos formatstr ax (Some (0, 10)%Q) kwargs plt = Ok plt' ->
  exists x label kw,
    artists (axes plt' (axes_or_current ax plt))
    = (artists (axes plt (axes_or_current ax plt)) ++ [Text x 10 label kw])%list /\
    kw !! "va" = Some (PyStr "top") /\
    str_format formatstr 10 = Ok label.
Proof.
  intros Hh Hrun. apply autolabel_Ok in Hrun as (labels & Hall & Hart).
  inversion Hall as [|r a rs ls Ha Hnil]; subst. inversion Hnil; subst.
  destruct Ha as (off & y & h & va & label & -> & _ & _ & _ & Hva & Hfmt & Hhi & _).
  destruct Hhi as [-> ->]; [rewrite Hh; reflexivity|].
  do 3 eexists. split; [exact Hart|]. split; [now simplify_map_eq | assumption].
Qed.

Lemma autolabel_limit_example_witness :
  exists x label kw,
    artists (axes (add_artist 0
                     (Text 0.5 10 "10"
                        {[ "ha" := PyStr "center"; "va" := PyStr "top" ]})
                     {| axes := fun _ => mkAxes (0, 20)%Q []; gca := 0 |}) 0)
    = ([] ++ [Text x 10 label kw])%list /\
    kw !! "va" = Some (PyStr "top") /\
    str_format (StrFormat := decimal_format) "{}" 10 = Ok label.
Proof.
  apply (autolabel_limit_example (H := decimal_format)
           (mkRectangle 0 1 15) "center" "{}" None ∅
           {| axes := fun _ => mkAxes (0, 20)%Q []; gca := 0 |});
    reflexivity.
Defined.




(* ===================================================================== *)
(** * set_ylim_symm and set_sharey_symm                                   *)
(* ===================================================================== *)

Lemma py_max_two (a b : Q) :
  (py_max a [b] = a \/ py_max a [b] = b) /\
  (a <= py_max a [b])%Q /\ (b <= py_max a [b])%Q.
Proof.
  unfold py_max. simpl. destruct (Qlt_bool a b) eqn:E.
  - apply Qlt_bool_iff in E. repeat split; auto; lra.
  - apply Qlt_bool_false_iff in E. repeat split; auto; lra.
Qed.

Lemma py_max_three (a b c : Q) :
  (py_max a [b; c] = a \/ py_max a [b; c] = b \/
   (py_max a [b; c] = c /\ (a < c)%Q)) /\
  (a <= py_max a [b; c])%Q /\ (b <= py_max a [b; c])%Q /\
  (c <= py_max a [b; c])%Q.
Proof.
  unfold py_max. simpl.
  destruct (Qlt_bool a b) eqn:E1;
    [apply Qlt_bool_iff in E1 | apply Qlt_bool_false_iff in E1];
    match goal with
    | |- context [Qlt_bool ?x c] =>
        destruct (Qlt_bool x c) eqn:E2;
        [apply Qlt_bool_iff in E2 | apply Qlt_bool_false_iff in E2]
    end;
    repeat split; auto; try lra.
  right. right. split; [reflexivity | lra].
Qed.

Lemma sharey_absmax_snoc (plt : pyplot) (axs : list nat) (ax : nat) :
  sharey_absmax plt (axs ++ [ax])
  = py_max (Qabs (fst (get_ylim (axes plt ax))))
           [Qabs (snd (get_ylim (axes plt ax))); sharey_absmax plt axs].
Proof.
  unfold sharey_absmax. rewrite fold_left_app. simpl.
  now destruct (get_ylim (axes plt ax)).
Qed.

Lemma sharey_absmax_bound (plt : pyplot) (axs : list nat) :
  (0 <= sharey_absmax plt axs)%Q /\
  (forall ax, In ax axs ->
     (Qabs (fst (get_ylim (axes plt ax))) <= sharey_absmax plt axs)%Q /\
     (Qabs (snd (get_ylim (axes plt ax))) <= sharey_absmax plt axs)%Q) /\
  (axs <> [] ->
   exists ax, In ax axs /\
     (sharey_absmax plt axs = Qabs (fst (get_ylim (axes plt ax))) \/
      sharey_absmax plt axs = Qabs (snd (get_ylim (axes plt ax))))).
Proof.
  induction axs as [|a axs (Hpos & Hall & Hex)] using rev_ind.
  - split; [unfold sharey_absmax; simpl; lra|]. split; [intros ? []|]. congruence.
  - rewrite sharey_absmax_snoc.
    set (yb := fst (get_ylim (axes plt a))) in *.
    set (yt := snd (get_ylim (axes plt a))) in *.
    set (m := sharey_absmax plt axs) in *.
    destruct (py_max_three (Qabs yb) (Qabs yt) m) as (Hsel & Ha & Hb & Hm).
    pose proof (Qabs_nonneg yb) as Hyb.
    split; [lra|]. split.
    + intros ax Hin. apply in_app_or in Hin as [Hin|[<-|[]]].
      * destruct (Hall ax Hin). split; lra.
      * fold yb yt. split; lra.
    + intros _. destruct Hsel as [E|[E|[E Hlt]]].
      * exists a. split; [apply in_or_app; right; now left|]. left. exact E.
      * exists a. split; [apply in_or_app; right; now left|]. right. exact E.
      * destruct axs as [|a' axs'] eqn:Eaxs.
        -- exfalso. subst m. unfold sharey_absmax in Hlt. simpl in Hlt. lra.
        -- destruct Hex as (ax & Hin & Hax); [discriminate|].
           exists ax. split; [apply in_or_app; now left|].
           rewrite E. exact Hax.
Qed.

(** The second loop of [set_sharey_symm]: every axes of the list ends
    with the same range, the others keep theirs. *)
Lemma set_ylim_all (bottom top : Q) (axs : list nat) (plt : pyplot) (ax : nat) :
  get_ylim (axes (fold_left (fun p a => set_ylim a bottom top p) axs plt) ax)
  = if in_dec Nat.eq_dec ax axs then (bottom, top) else get_ylim (axes plt ax).
Proof.
  revert plt. induction axs as [|a axs IH]; intros plt; [reflexivity|].
  cbn [fold_left]. rewrite IH.
  destruct (in_dec Nat.eq_dec ax axs) as [Hin|Hin];
    destruct (in_dec Nat.eq_dec ax (a :: axs)) as [Hin'|Hin']; try reflexivity.
  - exfalso. apply Hin'. now right.
  - destruct Hin' as [->|Hin']; [|contradiction].
    simpl. now rewrite Nat.eqb_refl.
  - simpl. destruct (Nat.eqb ax a) eqn:E; [|reflexivity].
    apply Nat.eqb_eq in E as ->. exfalso. apply Hin'. now left.
Qed.

(** C8. [set_ylim_symm] sets the range of an axes with range (yb, yt) to
    (-m, m) with m the larger of |yb| and |yt|, so (-2, 5) becomes
    (-5, 5); [set_sharey_symm], on a non-empty list of axes, sets every
    axes of the list to the one range (-m, m), m being the largest |bound|
    over the ranges the axes had before the call. *)
Theorem symmetric_y_ranges :
  (forall (ax : nat) (plt : pyplot),
      exists m,
        get_ylim (axes (set_ylim_symm ax plt) ax) = (- m, m)%Q /\
        (m = Qabs (fst (get_ylim (axes plt ax))) \/
         m = Qabs (snd (get_ylim (axes plt ax)))) /\
        (Qabs (fst (get_ylim (axes plt ax))) <= m)%Q /\
        (Qabs (snd (get_ylim (axes plt ax))) <= m)%Q) /\
  (forall (ax : nat) (plt : pyplot),
      get_ylim (axes plt ax) = (-2, 5)%Q ->
      get_ylim (axes (set_ylim_symm ax plt) ax) = (-5, 5)%Q) /\
  (forall (axs : list nat) (plt : pyplot),
      axs <> [] ->
      exists m,
        (forall ax, In ax axs ->
           get_ylim (axes (set_sharey_symm axs plt) ax) = (- m, m)%Q) /\
        (forall ax, In ax axs ->
           (Qabs (fst (get_ylim (axes plt ax))) <= m)%Q /\
           (Qabs (snd (get_ylim (axes plt ax))) <= m)%Q) /\
        (exists ax, In ax axs /\
           (m = Qabs (fst (get_ylim (axes plt ax))) \/
            m = Qabs (snd (get_ylim (axes plt ax)))))).
Proof.
  repeat split.
  - intros ax plt. unfold set_ylim_symm.
    destruct (get_ylim (axes plt ax)) as [yb yt]. simpl.
    exists (py_max (Qabs yb) [Qabs yt]).
    rewrite Nat.eqb_refl. simpl.
    destruct (py_max_two (Qabs yb) (Qabs yt)) as (Hsel & Ha & Hb). auto.
  - intros ax plt E. unfold set_ylim_symm. rewrite E. simpl.
    now rewrite Nat.eqb_refl.
  - intros axs plt Hne. exists (sharey_absmax plt axs).
    destruct (sharey_absmax_bound plt axs) as (_ & Hall & Hex).
    split; [|split; [exact Hall | exact (Hex Hne)]].
    intros ax Hin. unfold set_sharey_symm. fold (sharey_absmax plt axs).
    rewrite set_ylim_all. now destruct (in_dec Nat.eq_dec ax axs).
Qed.

Lemma symmetric_y_ranges_witness :
  get_ylim (axes (set_ylim_symm 1
                    {| axes := fun i => mkAxes (if Nat.eqb i 1 then (-2, 5) else (-7, 3))%Q [];
                       gca := 0 |}) 1) = (-5, 5)%Q /\
  exists m,
    (forall ax, In ax [0%nat; 1%nat; 0%nat] ->
       get_ylim (axes (set_sharey_symm [0%nat; 1%nat; 0%nat]
          {| axes := fun i => mkAxes (if Nat.eqb i 1 then (-2, 5) else (-7, 3))%Q [];
             gca := 0 |}) ax) = (- m, m)%Q) /\
    m = 7%Q.
Proof.
  destruct symmetric_y_ranges as (_ & Hone & Hshare).
  split; [now apply Hone|].
  destruct (Hshare [0%nat; 1%nat; 0%nat]
              {| axes := fun i => mkAxes (if Nat.eqb i 1 then (-2, 5) else (-7, 3))%Q [];
                 gca := 0 |}) as (m & Hset & _ & Hex); [discriminate|].
  exists m. split; [exact Hset|].
  specialize (Hset 0%nat (or_introl eq_refl)).
  vm_compute in Hset. now inversion Hset.
Defined.

(* ===================================================================== *)
(** * The file system: directories                                        *)
(* ===================================================================== *)

Lemma node_at_add_node_ne (k k' : list string) (n : node) (fs : filesystem) :
  k' <> k -> node_at (add_node k n fs) k' = node_at fs k'.
Proof.
  intros Hne. destruct k' as [|c k']; [reflexivity|]. simpl.
  now rewrite lookup_insert_ne by congruence.
Qed.

Lemma node_at_add_node_eq (k : list string) (n : node) (fs : filesystem) :
  k <> [] -> node_at (add_node k n fs) k = Some n.
Proof.
  intros Hne. destruct k as [|c k]; [congruence|]. simpl.
  now rewrite lookup_insert_eq.
Qed.

(** A node that is there stays when a missing one is added. *)
Lemma node_at_add_node_absent (k k' : list string) (n n' : node) (fs : filesystem) :
  node_at fs k = None -> node_at fs k' = Some n' ->
  node_at (add_node k n fs) k' = Some n'.
Proof.
  intros Hk Hk'. rewrite node_at_add_node_ne; [assumption|]. congruence.
Qed.

Lemma makedirs_from_unfold (fs : filesystem) (cur : list string) (names : list string) :
  makedirs_from fs cur names =
  match node_at fs cur with
  | None => Raise FileNotFoundError
  | Some (File _) =>
      Raise (match names with
             | [] => FileExistsError
             | _ => NotADirectoryError
             end)
  | Some Dir =>
      match names with
      | [] => Ok fs
      | name :: names' =>
          match node_at fs (step cur name) with
          | Some _ => makedirs_from fs (step cur name) names'
          | None => makedirs_from (add_node (step cur name) Dir fs) (step cur name) names'
          end
      end
  end.
Proof. destruct names; reflexivity. Qed.

(** [os.makedirs] only adds: what was there stays, and the working
    directory is the same. *)
Lemma makedirs_from_mono (names : list string) (fs fs' : filesystem) (cur : list string) :
  makedirs_from fs cur names = Ok fs' ->
  cwd fs' = cwd fs /\
  forall k n, node_at fs k = Some n -> node_at fs' k = Some n.
Proof.
  revert fs cur. induction names as [|name names IH]; intros fs cur;
    rewrite makedirs_from_unfold;
    destruct (node_at fs cur) as [[|data]|] eqn:Ecur; try discriminate.
  - intros E. inversion E; subst. auto.
  - destruct (node_at fs (step cur name)) as [n'|] eqn:Enext; intros E.
    + now apply IH in E.
    + apply IH in E as [Hcwd Hmono]. split; [exact Hcwd|].
      intros k n Hk. apply Hmono. now apply node_at_add_node_absent.
Qed.

(** After [os.makedirs] the path leads to a directory. *)
Lemma makedirs_from_walk (names : list string) (fs fs' : filesystem) (cur : list string) :
  makedirs_from fs cur names = Ok fs' ->
  exists k, walk fs' cur names = Ok k /\ node_at fs' k = Some Dir.
Proof.
  revert fs cur. induction names as [|name names IH]; intros fs cur E;
    pose proof (makedirs_from_mono _ _ _ _ E) as [_ Hmono];
    rewrite makedirs_from_unfold in E;
    destruct (node_at fs cur) as [[|data]|] eqn:Ecur; try discriminate.
  - inversion E; subst. exists cur. auto.
  - simpl. rewrite (Hmono _ _ Ecur).
    destruct (node_at fs (step cur name)); now apply IH in E.
Qed.

Lemma walk_Ok_cons (fs : filesystem) (cur k : list string) (name : string)
    (names : list string) :
  walk fs cur (name :: names) = Ok k ->
  node_at fs cur = Some Dir /\ walk fs (step cur name) names = Ok k.
Proof.
  simpl. destruct (node_at fs cur) as [[|data]|]; try discriminate. auto.
Qed.

(** Where the path already leads to a directory, [os.makedirs] changes
    nothing. *)
Lemma walk_makedirs_from (names : list string) (fs : filesystem) (cur k : list string) :
  walk fs cur names = Ok k -> node_at fs k = Some Dir ->
  makedirs_from fs cur names = Ok fs.
Proof.
  revert cur. induction names as [|name names IH]; intros cur Hwalk Hk;
    rewrite makedirs_from_unfold.
  - inversion Hwalk; subst. now rewrite Hk.
  - apply walk_Ok_cons in Hwalk as [Hcur Hwalk]. rewrite Hcur.
    assert (node_at fs (step cur name) = Some Dir) as Hnext.
    { destruct names as [|name' names'].
      - inversion Hwalk; subst. exact Hk.
      - now apply walk_Ok_cons in Hwalk as [Hnext _]. }
    rewrite Hnext. now apply IH.
Qed.

Lemma makedirs_isdir (name : string) (fs fs' : filesystem) :
  makedirs name fs = Ok fs' -> isdir name fs' = true.
Proof.
  unfold makedirs, isdir, resolve.
  destruct (String.eqb name ""); [discriminate|]. intros E.
  pose proof (makedirs_from_mono _ _ _ _ E) as [Hcwd _].
  apply makedirs_from_walk in E as (k & Hwalk & Hk).
  unfold start in *. rewrite Hcwd. now rewrite Hwalk, Hk.
Qed.

Lemma isdir_makedirs (name : string) (fs : filesystem) :
  isdir name fs = true -> makedirs name fs = Ok fs.
Proof.
  unfold makedirs, isdir, resolve.
  destruct (String.eqb name ""); [discriminate|].
  destruct (walk fs (start fs name) (split_slash name)) as [k|e] eqn:Hwalk;
    [|discriminate].
  destruct (node_at fs k) as [[|data]|] eqn:Hk; try discriminate.
  intros _. now apply walk_makedirs_from with k.
Qed.

(** A call of [make_parent_dir] that returns leaves the parent directory
    in place, and a further call has nothing to do. *)
Lemma make_parent_dir_Ok (path : string) (fs fs1 : filesystem) :
  make_parent_dir path fs = Ok fs1 ->
  isdir (dirname (normpath path)) fs1 = true /\ make_parent_dir path fs1 = Ok fs1.
Proof.
  unfold make_parent_dir. intros E. apply makedirs_isdir in E.
  split; [exact E | now apply isdir_makedirs].
Qed.










(** A regular file in the way of the parent directory. *)
Example make_parent_dir_file_in_the_way :
  make_parent_dir "notes/a.txt" (add_node ["work"; "notes"] (File []) work_fs)
  = Raise FileExistsError.
Proof. vm_compute. reflexivity. Qed.

(* ===================================================================== *)
(** * The file system: files                                              *)
(* ===================================================================== *)

Lemma split_slash_nonempty (path : string) : split_slash path <> [].
Proof.
  destruct path as [|c rest]; simpl; [discriminate|].
  destruct (Ascii.eqb c "/"); [discriminate|].
  destruct (split_slash rest); discriminate.
Qed.

Lemma walk_app (fs : filesystem) (cur : list string) (l1 l2 : list string) :
  walk fs cur (l1 ++ l2) = walk fs cur l1 ≫= fun d => walk fs d l2.
Proof.
  revert cur. induction l1 as [|name l1 IH]; intros cur; [reflexivity|].
  simpl. destruct (node_at fs cur) as [[|data]|]; auto.
Qed.

(** Making or rewriting a regular file moves no path that led somewhere. *)
Lemma walk_add_file (k : list string) (data : list byte) (fs : filesystem)
    (names : list string) (cur d : list string) :
  node_at fs k <> Some Dir ->
  walk fs cur names = Ok d ->
  walk (add_node k (File data) fs) cur names = Ok d.
Proof.
  intros Hk. revert cur. induction names as [|name names IH]; intros cur Hwalk;
    [exact Hwalk|].
  apply walk_Ok_cons in Hwalk as [Hcur Hwalk]. simpl.
  rewrite node_at_add_node_ne by congruence. rewrite Hcur. now apply IH.
Qed.

Lemma isdir_add_file (k : list string) (data : list byte) (fs : filesystem)
    (path : string) :
  node_at fs k <> Some Dir ->
  isdir path fs = true -> isdir path (add_node k (File data) fs) = true.
Proof.
  intros Hk. unfold isdir, resolve.
  destruct (String.eqb path ""); [discriminate|].
  change (start (add_node k (File data) fs) path) with (start fs path).
  destruct (walk fs (start fs path) (split_slash path)) as [d|e] eqn:Hwalk;
    [|discriminate].
  rewrite (walk_add_file _ _ _ _ _ _ Hk Hwalk).
  destruct (node_at fs d) as [[|data']|] eqn:Hd; try discriminate.
  rewrite node_at_add_node_ne by congruence. now rewrite Hd.
Qed.

(** What [open(filename, 'w')] returns when it returns. *)
Lemma open_write_Ok (filename : string) (fs fs1 : filesystem) (f : list string) :
  open_write filename fs = Ok (f, fs1) ->
  exists d name,
    String.eqb filename "" = false /\
    split_slash filename = (removelast (split_slash filename) ++ [name])%list /\
    walk fs (start fs filename) (removelast (split_slash filename)) = Ok d /\
    node_at fs d = Some Dir /\
    step d name = (d ++ [name])%list /\
    f = (d ++ [name])%list /\
    node_at fs f <> Some Dir /\
    fs1 = add_node f (File []) fs.
Proof.
  unfold open_write. destruct (String.eqb filename "") eqn:Hne; [discriminate|].
  intros E. apply bind_Ok in E as (d & Hwalk & E).
  set (name := List.last (split_slash filename) "") in *.
  destruct (String.eqb name "") eqn:Hname; [discriminate|].
  destruct (node_at fs d) as [[|data]|] eqn:Hd; try discriminate.
  destruct (String.eqb name "." || String.eqb name "..") eqn:Hdots; [discriminate|].
  exists d, name. split; [reflexivity|].
  split; [apply app_removelast_last, split_slash_nonempty|].
  split; [exact Hwalk|]. split; [exact Hd|].
  apply orb_false_iff in Hdots as [Hdot Hdd].
  split; [unfold step; now rewrite Hname, Hdot, Hdd|].
  destruct (node_at fs (d ++ [name])%list) as [[|data]|] eqn:Hf;
    try discriminate; inversion E; subst; (split; [reflexivity|]);
    (split; [congruence | reflexivity]).
Qed.

(** What is written to a file just opened is what a later [open] of the
    same name reads. *)
Lemma open_write_read (filename : string) (fs fs1 : filesystem) (f : list string)
    (data : list byte) :
  open_write filename fs = Ok (f, fs1) ->
  open_read filename (file_write f data fs1) = Ok data.
Proof.
  intros E.
  apply open_write_Ok in E
    as (d & name & Hne & Hsplit & Hwalk & Hd & Hstep & -> & Hf & ->).
  assert ((d ++ [name])%list <> []) as Hnil by (now destruct d).
  assert (file_write (d ++ [name])%list data (add_node (d ++ [name])%list (File []) fs)
          = add_node (d ++ [name])%list (File data)
              (add_node (d ++ [name])%list (File []) fs)) as ->.
  { unfold file_write. simpl. now rewrite lookup_insert_eq. }
  set (f := (d ++ [name])%list) in *.
  set (fs1 := add_node f (File []) fs).
  assert (node_at fs1 f <> Some Dir) as Hf1.
  { unfold fs1. rewrite node_at_add_node_eq by assumption. discriminate. }
  unfold open_read, resolve. rewrite Hne.
  change (start (add_node f (File data) fs1) filename) with (start fs filename).
  rewrite Hsplit, walk_app.
  rewrite (walk_add_file f data fs1 _ _ d Hf1 (walk_add_file f [] fs _ _ d Hf Hwalk)).
  assert (node_at (add_node f (File data) fs1) d = Some Dir) as Hd2.
  { rewrite node_at_add_node_ne by congruence.
    unfold fs1. rewrite node_at_add_node_ne by congruence. exact Hd. }
  assert (node_at (add_node f (File data) fs1) f = Some (File data)) as Hf2
    by now apply node_at_add_node_eq.
  unfold mbind, result_bind. cbn [walk]. now rewrite Hd2, Hstep, Hf2.
Qed.

(** The directories stay when a file is opened and written. *)
Lemma open_write_isdir (filename path : string) (fs fs1 : filesystem)
    (f : list string) (data : list byte) :
  open_write filename fs = Ok (f, fs1) ->
  isdir path fs = true -> isdir path (file_write f data fs1) = true.
Proof.
  intros E Hdir.
  apply open_write_Ok in E as (d & name & _ & _ & _ & _ & _ & Hfeq & Hf & ->).
  assert (f <> []) as Hnil by (subst f; now destruct d).
  unfold file_write. simpl. rewrite lookup_insert_eq.
  apply isdir_add_file.
  - rewrite node_at_add_node_eq by assumption. discriminate.
  - now apply isdir_add_file.
Qed.

(* ===================================================================== *)
(** * Paths and their components                                          *)
(* ===================================================================== *)

Lemma split_slash_no_slash (path : string) :
  no_slash path = true -> split_slash path = [path].
Proof.
  induction path as [|c rest IH]; [reflexivity|]. simpl.
  destruct (Ascii.eqb c "/"); [discriminate|]. simpl.
  intros Hrest. now rewrite (IH Hrest).
Qed.




























(* ===================================================================== *)
(** * Saving                                                              *)
(* ===================================================================== *)






(* ===================================================================== *)
(** * Saving, then loading                                                *)
(* ===================================================================== *)

(** C5, amended.  Round trip, for each of the four formats.  For JSON,
    pickle and MessagePack: a value that the library decodes back from
    what it encodes it to is what loading a path yields after the value
    has been saved to that path.  For tables, pandas opens the file
    itself: where pandas, with the options the two wrappers pass it,
    reads back the table it was given from a file it has written in a
    directory that exists, [read_tsv] yields the table saved by [to_tsv],
    whether the directory was there before or not. *)
Theorem save_load_roundtrip `{Json} `{Pandas} `{Pickle} `{Msgpack} :
  (forall data filename kw fs fs',
      (forall text, json_dumps data kw = Ok text -> json_loads text = Ok data) ->
      json_dump data filename kw fs = Ok fs' ->
      json_load filename fs' = Ok data) /\
  (forall df filename kw kw' fs fs',
      (forall fs1 fs2,
          isdir (dirname (normpath filename)) fs1 = true ->
          df_to_csv df filename
            (dict_update {[ "sep" := PyStr (String (ascii_of_nat 9) EmptyString);
                            "index" := PyBool false ]} kw) fs1 = Ok fs2 ->
          pd_read_csv filename
            (dict_update {[ "sep" := PyStr (String (ascii_of_nat 9) EmptyString);
                            "header" := PyNum 0 ]} kw') fs2 = Ok df) ->
      to_tsv df filename kw fs = Ok fs' ->
      read_tsv filename kw' fs' = Ok df) /\
  (forall obj filename kw fs fs',
      (forall data, pickle_dumps obj kw = Ok data -> pickle_loads data = Ok obj) ->
      pickle_dump obj filename kw fs = Ok fs' ->
      pickle_load filename fs' = Ok obj) /\
  (forall o filename fs fs',
      (forall data, msgpack_packb o = Ok data -> msgpack_unpackb data = Ok o) ->
      pack_msgpack o filename fs = Ok fs' ->
      unpack_msgpack filename fs' = Ok o).
Proof.
  repeat match goal with |- _ /\ _ => split end.
  - intros data filename kw fs fs' Hcodec E.
    apply bind_Ok in E as (fs1 & _ & E).
    apply bind_Ok in E as ([f fs2] & Hopen & E).
    apply bind_Ok in E as (text & Htext & E). inversion E; subst; clear E.
    unfold json_load. rewrite (open_write_read _ _ _ _ text Hopen). simpl.
    now rewrite (Hcodec _ Htext).
  - intros df filename kw kw' fs fs' Hpandas E.
    apply bind_Ok in E as (fs1 & Hmake & E). cbv zeta in E.
    apply make_parent_dir_Ok in Hmake as [Hdir _].
    unfold read_tsv. cbv zeta. now rewrite (Hpandas _ _ Hdir E).
  - intros obj filename kw fs fs' Hcodec E.
    apply bind_Ok in E as (fs1 & _ & E).
    apply bind_Ok in E as ([f fs2] & Hopen & E).
    apply bind_Ok in E as (data & Hdata & E). inversion E; subst; clear E.
    unfold pickle_load. rewrite (open_write_read _ _ _ _ data Hopen). simpl.
    now rewrite (Hcodec _ Hdata).
  - intros o filename fs fs' Hcodec E.
    apply bind_Ok in E as (fs1 & _ & E).
    apply bind_Ok in E as ([f fs2] & Hopen & E).
    apply bind_Ok in E as (data & Hdata & E). inversion E; subst; clear E.
    unfold unpack_msgpack. rewrite (open_write_read _ _ _ _ data Hopen). simpl.
    now apply Hcodec.
Qed.

Lemma save_load_roundtrip_witness :
  (exists fs', json_dump (H := str_json) (PyStr "[1, 2]") "out/a/b.json" ∅ work_fs = Ok fs' /\
               json_load (H := str_json) "out/a/b.json" fs' = Ok (PyStr "[1, 2]")) /\
  (exists fs', to_tsv (H := str_pandas) "x" "t/x.tsv" ∅ work_fs = Ok fs' /\
               read_tsv (H := str_pandas) "t/x.tsv" ∅ fs' = Ok "x") /\
  (exists fs', pickle_dump (H := str_pickle) (PyStr "obj") "/tmp/o.pkl" ∅ work_fs = Ok fs' /\
               pickle_load (H := str_pickle) "/tmp/o.pkl" fs' = Ok (PyStr "obj")) /\
  (exists fs', pack_msgpack (H := small_msgpack)
                 (PyDict [(PyStr "a", PyNum 1)]) "../m.bin" work_fs = Ok fs' /\
               unpack_msgpack (H := small_msgpack) "../m.bin" fs'
               = Ok (PyDict [(PyStr "a", PyNum 1)])).
Proof.
  destruct (save_load_roundtrip (H := str_json) (H0 := str_pandas)
              (H1 := str_pickle) (H2 := small_msgpack))
    as (Hjson & Htsv & Hpickle & Hmsgpack).
  repeat match goal with |- _ /\ _ => split end; eexists.
  - split; [vm_compute; reflexivity|].
    apply (Hjson (PyStr "[1, 2]") "out/a/b.json" ∅ work_fs);
      [intros text E; inversion E; reflexivity | vm_compute; reflexivity].
  - split; [vm_compute; reflexivity|].
    apply (Htsv "x" "t/x.tsv" ∅ ∅ work_fs); [|vm_compute; reflexivity].
    intros fs1 fs2 _ E. cbn [df_to_csv pd_read_csv str_pandas] in *.
    apply bind_Ok in E as ([f fs3] & Hopen & E). injection E as <-.
    rewrite (open_write_read _ _ _ _ _ Hopen). cbn [mbind result_bind].
    now rewrite string_of_list_byte_of_string.
  - split; [vm_compute; reflexivity|].
    apply (Hpickle (PyStr "obj") "/tmp/o.pkl" ∅ work_fs);
      [intros text E; inversion E; reflexivity | vm_compute; reflexivity].
  - split; [vm_compute; reflexivity|].
    apply (Hmsgpack (PyDict [(PyStr "a", PyNum 1)]) "../m.bin" work_fs);
      [intros data E; vm_compute in E; injection E as <-; vm_compute; reflexivity
      | vm_compute; reflexivity].
Defined.

(** The claim C5 fails on a value that serializes and is not decoded
    back: msgpack packs a map with an integer key, and does not unpack
    it. *)
Lemma pack_msgpack_roundtrip_counterexample :
  exists fs',
    pack_msgpack (H := small_msgpack) (PyDict [(PyNum 1, PyStr "a")]) "out/m.bin"
                 work_fs = Ok fs' /\
    open_read "out/m.bin" fs' = Ok [x81; x01; xa1; x61] /\
    unpack_msgpack (H := small_msgpack) "out/m.bin" fs' = Raise ValueError.
Proof.
  eexists. split; [vm_compute; reflexivity|].
  split; vm_compute; reflexivity.
Qed.


(* ===================================================================== *)
(** * md5                                                                 *)
(* ===================================================================== *)

Lemma sum_hashlib_laws : HashlibLaws sum_hashlib.
Proof.
  split; [reflexivity|]. intros h a b. simpl. now rewrite fold_left_app.
Qed.

(** The loop over the chunks feeds the hash the whole file. *)
Lemma md5_chunks_update `{Hashlib} `{!HashlibLaws H} (h : md5_state) (f : list byte) :
  md5_chunks h f = md5_update h f.
Proof.
  funelim (md5_chunks h f).
  - match goal with
    | E : take _ ?f = [] |- _ => destruct f; [|discriminate E]
    end.
    now rewrite md5_update_nil.
  - match goal with
    | IH : HashlibLaws _ -> _ |- _ => rewrite IH by assumption
    end.
    rewrite md5_update_app.
    match goal with
    | E : take _ _ = _ :: _ |- _ => rewrite <- E
    end.
    now rewrite take_drop.
Qed.

Lemma hex_lower_digits (data : list byte) :
  forallb lower_hex_digit (list_ascii_of_string (hex_lower data)) = true.
Proof.
  induction data as [|b data IH]; [reflexivity|].
  simpl. rewrite IH.
  destruct b; reflexivity.
Qed.

Lemma hex_lower_length (data : list byte) :
  String.length (hex_lower data) = 2 * length data.
Proof.
  induction data as [|b data IH]; [reflexivity|]. simpl. rewrite IH. lia.
Qed.

(** C6. [md5] reads the file in chunks of 4096 bytes and feeds each to
    the hash; what it returns is the digest of the whole content of the
    file, hashed in one pass, in lower-case hexadecimal. *)
Theorem md5_chunked_is_whole `{Hashlib} `{!HashlibLaws H}
    (filename : string) (fs : filesystem) :
  (forall data, open_read filename fs = Ok data ->
     md5 filename fs = Ok (md5_of_bytes data) /\
     md5_of_bytes data = hex_lower (md5_digest (md5_update md5_new data)) /\
     forallb lower_hex_digit (list_ascii_of_string (md5_of_bytes data)) = true /\
     String.length (md5_of_bytes data)
     = 2 * length (md5_digest (md5_update md5_new data))) /\
  (forall e, open_read filename fs = Raise e -> md5 filename fs = Raise e).
Proof.
  split.
  - intros data E. unfold md5. rewrite E. simpl.
    rewrite md5_chunks_update.
    split; [reflexivity|]. split; [reflexivity|].
    split; [apply hex_lower_digits | apply hex_lower_length].
  - intros e E. unfold md5. now rewrite E.
Qed.

Lemma md5_chunked_is_whole_witness :
  md5 (H := sum_hashlib) "data/big.bin"
      (add_node ["work"; "data"; "big.bin"] (File (repeat "a"%byte 5000))
         (add_node ["work"; "data"] Dir work_fs))
  = Ok "88".
Proof.
  destruct (md5_chunked_is_whole (H := sum_hashlib) (HashlibLaws0 := sum_hashlib_laws)
              "data/big.bin"
              (add_node ["work"; "data"; "big.bin"] (File (repeat "a"%byte 5000))
                 (add_node ["work"; "data"] Dir work_fs))) as (Hmd5 & _).
  destruct (Hmd5 (repeat "a"%byte 5000)) as (E & _); [vm_compute; reflexivity|].
  rewrite E. vm_compute. reflexivity.
Defined.

(* ===================================================================== *)
(** * More on make_parent_dir and the save operations                     *)
(* ===================================================================== *)

Lemma makedirs_from_adds_dirs (names : list string) (fs fs' : filesystem)
    (cur : list string) :
  makedirs_from fs cur names = Ok fs' ->
  forall k n, node_at fs' k = Some n ->
              node_at fs k = Some n \/ (node_at fs k = None /\ n = Dir).
Proof.
  revert fs cur. induction names as [|name names IH]; intros fs cur;
    rewrite makedirs_from_unfold;
    destruct (node_at fs cur) as [[|data]|] eqn:Ecur; try discriminate.
  - intros E. inversion E; subst. auto.
  - destruct (node_at fs (step cur name)) as [n'|] eqn:Enext; intros E k n Hk.
    + now apply (IH _ _ E).
    + destruct (decide (k = step cur name)) as [->|Hne].
      * right. split; [exact Enext|].
        destruct (IH _ _ E _ _ Hk) as [Hk'|[Hk' ?]]; [|assumption].
        rewrite node_at_add_node_eq in Hk'; [congruence|].
        intros Hnil. rewrite Hnil in Enext. discriminate.
      * destruct (IH _ _ E _ _ Hk) as [Hk'|[Hk' ?]];
          rewrite node_at_add_node_ne in Hk' by assumption; auto.
Qed.

(** X1. [make_parent_dir] only adds directories: in the file system it
    returns, everything that was there is there unchanged, whatever is new
    is a directory, and the working directory is the same. *)
Theorem make_parent_dir_only_adds_directories (path : string)
    (fs fs' : filesystem) :
  make_parent_dir path fs = Ok fs' ->
  cwd fs' = cwd fs /\
  (forall k n, node_at fs k = Some n -> node_at fs' k = Some n) /\
  (forall k n, node_at fs' k = Some n ->
               node_at fs k = Some n \/ (node_at fs k = None /\ n = Dir)).
Proof.
  unfold make_parent_dir, makedirs.
  destruct (String.eqb (dirname (normpath path)) ""); [discriminate|].
  intros E. destruct (makedirs_from_mono _ _ _ _ E) as [Hcwd Hmono].
  split; [exact Hcwd|]. split; [exact Hmono|].
  now apply makedirs_from_adds_dirs with (1 := E).
Qed.

Lemma make_parent_dir_only_adds_directories_witness :
  let fs := add_node ["work"; "out"; "old.txt"] (File ["x"%byte])
              (add_node ["work"; "out"] Dir work_fs) in
  exists fs',
    make_parent_dir "out/a/b/c.json" fs = Ok fs' /\
    node_at fs' ["work"; "out"; "old.txt"] = Some (File ["x"%byte]) /\
    (node_at fs ["work"; "out"; "a"; "b"] = Some Dir \/
     (node_at fs ["work"; "out"; "a"; "b"] = None /\ Dir = Dir)).
Proof.
  intros fs. eexists. split; [vm_compute; reflexivity|].
  match goal with
  | |- node_at ?fs' _ = _ /\ _ =>
      destruct (make_parent_dir_only_adds_directories "out/a/b/c.json" fs fs')
        as (_ & Hkeep & Hnew); [vm_compute; reflexivity|]
  end.
  split; [apply Hkeep; vm_compute; reflexivity|].
  apply Hnew. vm_compute. reflexivity.
Defined.

Lemma dirname_no_slash (path : string) :
  no_slash path = true -> dirname path = "".
Proof.
  intros Hp. unfold dirname. now rewrite (split_slash_no_slash _ Hp).
Qed.

Lemma normpath_no_slash (path : string) :
  no_slash path = true ->
  normpath path = if String.eqb path "" || String.eqb path "." then "." else path.
Proof.
  intros Hp. unfold normpath.
  destruct (String.eqb path "") eqn:Hempty; [reflexivity|].
  assert (startswith "/" path = false) as Hstart.
  { destruct path as [|c rest]; [reflexivity|].
    cbn [no_slash] in Hp. apply andb_true_iff in Hp as [Hc _].
    apply negb_true_iff in Hc.
    change (startswith "/" (String c rest)) with (Ascii.eqb "/" c && true).
    now rewrite Ascii.eqb_sym, Hc. }
  rewrite Hstart, (split_slash_no_slash _ Hp). simpl.
  rewrite Hempty. simpl.
  destruct (String.eqb path ".") eqn:Hdot; [reflexivity|].
  rewrite orb_true_r. simpl. change ("" +:+ path) with path. now rewrite Hempty.
Qed.

Lemma dirname_normpath_no_slash (path : string) :
  no_slash path = true -> dirname (normpath path) = "".
Proof.
  intros Hp. rewrite (normpath_no_slash _ Hp).
  destruct (String.eqb path "" || String.eqb path "."); [reflexivity|].
  now apply dirname_no_slash.
Qed.

(** X2. A destination that is a bare file name has no parent directory to
    name: [dirname] gives the empty string, [os.makedirs] raises
    [FileNotFoundError] on it, and so does [make_parent_dir] and every
    save operation, whatever the file system holds. *)
Theorem save_to_bare_name_raises `{Json} `{Pandas} `{Pickle} `{Msgpack}
    `{Matplotlib} (filename : string) (fs : filesystem) :
  no_slash filename = true ->
  make_parent_dir filename fs = Raise FileNotFoundError /\
  (forall out, write out filename fs = Raise FileNotFoundError) /\
  (forall data kw, json_dump data filename kw fs = Raise FileNotFoundError) /\
  (forall df kw, to_tsv df filename kw fs = Raise FileNotFoundError) /\
  (forall obj kw, pickle_dump obj filename kw fs = Raise FileNotFoundError) /\
  (forall o, pack_msgpack o filename fs = Raise FileNotFoundError) /\
  (forall kwargs plt, savefig filename kwargs fs plt = Raise FileNotFoundError).
Proof.
  intros Hp.
  assert (make_parent_dir filename fs = Raise FileNotFoundError) as E.
  { unfold make_parent_dir. now rewrite (dirname_normpath_no_slash _ Hp). }
  split; [exact E|].
  repeat match goal with |- _ /\ _ => split end; intros;
    unfold write, json_dump, to_tsv, pickle_dump, pack_msgpack, savefig;
    now rewrite E.
Qed.

Lemma save_to_bare_name_raises_witness :
  write "hello" "out.txt" work_fs = Raise FileNotFoundError.
Proof.
  destruct (save_to_bare_name_raises (H := str_json) (H0 := str_pandas)
              (H1 := str_pickle) (H2 := str_msgpack) (H3 := blank_matplotlib)
              "out.txt" work_fs) as (_ & Hwrite & _); [reflexivity|].
  apply Hwrite.
Defined.

(** What opening the destination, producing the bytes and writing them
    does to the file system. *)
Lemma write_body_Ok (filename : string) (bytes : result (list byte))
    (fs fs' : filesystem) :
  ('(f, fs1) ← open_write filename fs; data ← bytes; Ok (file_write f data fs1))
    = Ok fs' ->
  exists f data,
    bytes = Ok data /\
    open_read filename fs' = Ok data /\
    node_at fs' f = Some (File data) /\
    node_at fs f <> Some Dir /\
    cwd fs' = cwd fs /\
    forall k, k <> f -> node_at fs' k = node_at fs k.
Proof.
  intros E. apply bind_Ok in E as ([f fs1] & Hopen & E).
  apply bind_Ok in E as (data & Hdata & E). injection E as <-.
  exists f, data. split; [exact Hdata|].
  split; [now apply open_write_read with fs|].
  apply open_write_Ok in Hopen as (d & name & _ & _ & _ & _ & _ & Hf & Hnd & ->).
  assert (f <> []) as Hnil by (subst f; now destruct d).
  unfold file_write. cbn [nodes add_node]. rewrite lookup_insert_eq.
  split; [now apply node_at_add_node_eq|]. split; [exact Hnd|].
  split; [reflexivity|].
  intros k Hk. now rewrite !node_at_add_node_ne.
Qed.

(** A save: [make_parent_dir], then the body above. *)
Lemma save_Ok (filename : string) (bytes : result (list byte))
    (fs fs' : filesystem) :
  (fs1 ← make_parent_dir filename fs;
   '(f, fs2) ← open_write filename fs1; data ← bytes; Ok (file_write f data fs2))
    = Ok fs' ->
  exists data,
    bytes = Ok data /\ open_read filename fs' = Ok data /\
    saves_one_file fs fs' data.
Proof.
  intros E. apply bind_Ok in E as (fs1 & Hdir & E).
  apply write_body_Ok in E as (f & data & Hdata & Hread & Hf & Hnd & Hcwd & Hrest).
  exists data. split; [exact Hdata|]. split; [exact Hread|].
  unfold make_parent_dir, makedirs in Hdir.
  destruct (String.eqb (dirname (normpath filename)) ""); [discriminate|].
  destruct (makedirs_from_mono _ _ _ _ Hdir) as [Hcwd1 Hmono].
  exists f. split; [exact Hf|].
  split; [intros Hd; apply Hnd; now apply Hmono|].
  split; [congruence|]. split.
  - intros k n Hk Hn. rewrite Hrest by assumption. now apply Hmono.
  - intros k n Hk Hn. rewrite Hrest in Hn by assumption.
    now apply makedirs_from_adds_dirs with (1 := Hdir).
Qed.

(** X3. [write] overwrites: whatever the destination held before, after
    a [write] that returns, opening the same name reads exactly the text
    written. *)
Theorem write_then_read (out filename : string) (fs fs' : filesystem) :
  write out filename fs = Ok fs' ->
  open_read filename fs' = Ok (list_byte_of_string out).
Proof.
  intros E. apply (save_Ok filename (Ok (list_byte_of_string out))) in E
    as (data & Hdata & Hread & _).
  inversion Hdata; subst. exact Hread.
Qed.

Lemma write_then_read_witness :
  let fs1 := add_node ["work"; "notes"; "a.txt"]
               (File (list_byte_of_string "first draft"))
               (add_node ["work"; "notes"] Dir work_fs) in
  let fs2 := add_node ["work"; "notes"; "a.txt"]
               (File (list_byte_of_string "second"))
               (add_node ["work"; "notes"] Dir work_fs) in
  write "first draft" "notes/a.txt" work_fs = Ok fs1 /\
  write "second" "notes/a.txt" fs1 = Ok fs2 /\
  open_read "notes/a.txt" fs2 = Ok (list_byte_of_string "second").
Proof.
  intros fs1 fs2. split; [vm_compute; reflexivity|].
  split; [vm_compute; reflexivity|].
  apply (write_then_read "second" "notes/a.txt" fs1 fs2).
  vm_compute. reflexivity.
Defined.

(** X4. A save that opens the destination itself ([write], [json_dump],
    [pickle_dump], [pack_msgpack]) and returns has written one regular
    file, holding what the library encoded the value to (for [write], the
    text), and has otherwise only added directories: every other file and
    directory is as it was. *)
Theorem save_writes_one_file `{Json} `{Pickle} `{Msgpack}
    (filename : string) (fs fs' : filesystem) :
  (forall out, write out filename fs = Ok fs' ->
     saves_one_file fs fs' (list_byte_of_string out)) /\
  (forall data kw, json_dump data filename kw fs = Ok fs' ->
     exists text, json_dumps data kw = Ok text /\ saves_one_file fs fs' text) /\
  (forall obj kw, pickle_dump obj filename kw fs = Ok fs' ->
     exists data, pickle_dumps obj kw = Ok data /\ saves_one_file fs fs' data) /\
  (forall o, pack_msgpack o filename fs = Ok fs' ->
     exists data, msgpack_packb o = Ok data /\ saves_one_file fs fs' data).
Proof.
  repeat match goal with |- _ /\ _ => split end.
  - intros out E.
    apply (save_Ok filename (Ok (list_byte_of_string out))) in E
      as (data & Hdata & _ & Hsave).
    inversion Hdata; subst. exact Hsave.
  - intros data kw E. apply (save_Ok filename (json_dumps data kw)) in E
      as (text & Htext & _ & Hsave). eauto.
  - intros obj kw E. apply (save_Ok filename (pickle_dumps obj kw)) in E
      as (data & Hdata & _ & Hsave). eauto.
  - intros o E. apply (save_Ok filename (msgpack_packb o)) in E
      as (data & Hdata & _ & Hsave). eauto.
Qed.

Lemma save_writes_one_file_witness :
  let fs := add_node ["work"; "keep.txt"] (File ["k"%byte]) work_fs in
  exists fs',
    json_dump (H := str_json) (PyStr "{}") "out/a.json" ∅ fs = Ok fs' /\
    exists text,
      json_dumps (Json := str_json) (PyStr "{}") ∅ = Ok text /\
      saves_one_file fs fs' text.
Proof.
  intros fs. eexists. split; [vm_compute; reflexivity|].
  match goal with
  | |- exists text, _ /\ saves_one_file _ ?fs' _ =>
      destruct (save_writes_one_file (H := str_json) (H0 := str_pickle)
                  (H1 := str_msgpack) "out/a.json" fs fs') as (_ & Hjson & _)
  end.
  apply Hjson. vm_compute. reflexivity.
Defined.


(* ===================================================================== *)
(** * More on the tables and on md5                                       *)
(* ===================================================================== *)

(** X5. The options pandas gets from [to_tsv] and [read_tsv]: every
    option of the caller with the value the caller gave it, a tab as
    [sep] where the caller gave none, [index=False] (for [to_tsv]) and
    [header=0] (for [read_tsv]) where the caller gave none, and nothing
    else. *)
Theorem tsv_defaults `{Pandas} (filename : string) (kw : gmap string pyval) :
  let to_kw : gmap string pyval :=
    dict_update {[ "sep" := PyStr (String (ascii_of_nat 9) EmptyString);
                   "index" := PyBool false ]} kw in
  let read_kw : gmap string pyval :=
    dict_update {[ "sep" := PyStr (String (ascii_of_nat 9) EmptyString);
                   "header" := PyNum 0 ]} kw in
    (forall df fs,
        to_tsv df filename kw fs
        = make_parent_dir filename fs ≫= df_to_csv df filename to_kw) /\
    (forall fs, read_tsv filename kw fs = pd_read_csv filename read_kw fs) /\
    (forall k v, kw !! k = Some v -> to_kw !! k = Some v /\ read_kw !! k = Some v) /\
    (kw !! "sep" = None ->
     to_kw !! "sep" = Some (PyStr (String (ascii_of_nat 9) EmptyString)) /\
     read_kw !! "sep" = Some (PyStr (String (ascii_of_nat 9) EmptyString))) /\
    (kw !! "index" = None -> to_kw !! "index" = Some (PyBool false)) /\
    (kw !! "header" = None -> read_kw !! "header" = Some (PyNum 0)) /\
    dom to_kw = {[ "sep"; "index" ]} ∪ dom kw /\
    dom read_kw = {[ "sep"; "header" ]} ∪ dom kw.
Proof.
  intros to_kw read_kw. subst to_kw read_kw. unfold dict_update.
  split; [reflexivity|].
  split; [intros fs; unfold read_tsv, dict_update; cbv zeta;
          now destruct (pd_read_csv _ _ fs)|].
  split; [intros k v Hk; split; now apply lookup_union_Some_l|].
  split; [intros Hk; split; now rewrite lookup_union_r by assumption|].
  split; [intros Hk; now rewrite lookup_union_r by assumption|].
  split; [intros Hk; now rewrite lookup_union_r by assumption|].
  split; rewrite dom_union_L, dom_insert_L, dom_singleton_L; set_solver.
Qed.

Lemma tsv_defaults_witness :
  exists to_kw read_kw : gmap string pyval,
    to_kw !! "sep" = Some (PyStr ",") /\
    to_kw !! "index" = Some (PyBool false) /\
    read_kw !! "sep" = Some (PyStr ",") /\
    read_kw !! "header" = Some (PyNum 0) /\
    (forall fs, read_tsv (H := str_pandas) "t/x.csv" {[ "sep" := PyStr "," ]} fs
                = pd_read_csv (Pandas := str_pandas) "t/x.csv" read_kw fs).
Proof.
  pose proof (tsv_defaults (H := str_pandas) "t/x.csv" {[ "sep" := PyStr "," ]})
    as Hdefaults.
  cbv zeta in Hdefaults.
  destruct Hdefaults as (_ & Hread & Hcaller & _ & Hindex & Hheader & _).
  do 2 eexists.
  destruct (Hcaller "sep" (PyStr ",")) as [Hto Hfrom]; [reflexivity|].
  split; [exact Hto|]. split; [apply Hindex; reflexivity|].
  split; [exact Hfrom|]. split; [apply Hheader; reflexivity|]. exact Hread.
Defined.


(** The loop of [md5], one step at a time. *)
Lemma md5_chunks_unfold `{Hashlib} (h : md5_state) (f : list byte) :
  md5_chunks h f =
  match take 4096 f with
  | [] => h
  | chunk => md5_chunks (md5_update h chunk) (drop 4096 f)
  end.
Proof.
  funelim (md5_chunks h f);
    match goal with
    | E : take _ _ = _ |- _ => now rewrite E
    end.
Qed.

Lemma md5_chunks_trace (acc : list (list byte)) (f : list byte) :
  md5_chunks (H := trace_hashlib) acc f = (acc ++ md5_update_calls f)%list.
Proof.
  unfold md5_update_calls.
  remember (length f) as n eqn:Hn. revert acc f Hn.
  induction n as [n IH] using lt_wf_ind. intros acc f ->.
  rewrite (md5_chunks_unfold (H := trace_hashlib) acc f).
  rewrite (md5_chunks_unfold (H := trace_hashlib) [] f).
  destruct (take 4096 f) as [|b chunk] eqn:E; [now rewrite app_nil_r|].
  assert (length (drop 4096 f) < length f) as Hlt.
  { destruct f as [|b0 f]; [discriminate|]. rewrite length_drop. simpl. lia. }
  cbn [md5_update trace_hashlib].
  rewrite (IH _ Hlt (acc ++ [b :: chunk])%list _ eq_refl).
  rewrite (IH _ Hlt ([] ++ [b :: chunk])%list _ eq_refl).
  simpl. now rewrite <- app_assoc.
Qed.

Lemma md5_update_calls_unfold (f : list byte) :
  md5_update_calls f =
  match take 4096 f with
  | [] => []
  | chunk => chunk :: md5_update_calls (drop 4096 f)
  end.
Proof.
  unfold md5_update_calls at 1.
  rewrite (md5_chunks_unfold (H := trace_hashlib) [] f).
  destruct (take 4096 f) as [|b chunk]; [reflexivity|].
  now rewrite md5_chunks_trace.
Qed.

Lemma md5_chunks_fold `{Hashlib} (h : md5_state) (f : list byte) :
  md5_chunks h f = fold_left md5_update (md5_update_calls f) h.
Proof.
  remember (length f) as n eqn:Hn. revert h f Hn.
  induction n as [n IH] using lt_wf_ind. intros h f ->.
  rewrite md5_chunks_unfold, md5_update_calls_unfold.
  destruct (take 4096 f) as [|b chunk] eqn:E; [reflexivity|].
  assert (length (drop 4096 f) < length f) as Hlt.
  { destruct f as [|b0 f]; [discriminate|]. rewrite length_drop. simpl. lia. }
  simpl. exact (IH _ Hlt _ _ eq_refl).
Qed.

Lemma md5_update_calls_spec (f : list byte) :
  concat (md5_update_calls f) = f /\
  Forall (fun chunk => 1 <= length chunk <= 4096) (md5_update_calls f) /\
  Forall (fun chunk => length chunk = 4096) (removelast (md5_update_calls f)) /\
  (md5_update_calls f = [] <-> f = []).
Proof.
  remember (length f) as n eqn:Hn. revert f Hn.
  induction n as [n IH] using lt_wf_ind. intros f ->.
  rewrite md5_update_calls_unfold.
  destruct (take 4096 f) as [|b chunk] eqn:E.
  - assert (f = []) as -> by (destruct f; [reflexivity | discriminate]).
    repeat split; constructor.
  - assert (length (drop 4096 f) < length f) as Hlt.
    { destruct f as [|b0 f]; [discriminate|]. rewrite length_drop. simpl. lia. }
    destruct (IH _ Hlt _ eq_refl) as (Hcat & Hlen & Hfull & Hnil).
    assert (length (b :: chunk) <= 4096) as Hle.
    { rewrite <- E, length_take. lia. }
    split; [cbn [concat]; rewrite Hcat, <- E; apply take_drop|].
    split; [constructor; [simpl in *; lia | exact Hlen]|].
    split.
    + destruct (md5_update_calls (drop 4096 f)) as [|c cs] eqn:Ecs;
        [constructor|].
      change (removelast ((b :: chunk) :: c :: cs))
        with ((b :: chunk) :: removelast (c :: cs)).
      constructor; [|exact Hfull].
      rewrite <- E, length_take.
      assert (drop 4096 f <> []) as Hdrop.
      { intros Hd. apply Hnil in Hd. discriminate. }
      assert (length (drop 4096 f) <> 0) as Hd'
        by (destruct (drop 4096 f); [congruence | discriminate]).
      rewrite length_drop in Hd'. lia.
    + split; [discriminate|]. intros ->. discriminate.
Qed.

(** X6. [md5] feeds the hash object the file in successive chunks: each
    call of [update] gets between 1 and 4096 bytes, every call but the
    last exactly 4096, the chunks put end to end are the content of the
    file, and an empty file makes no call at all.  This holds for every
    hash object. *)
Theorem md5_reads_in_chunks `{Hashlib} (filename : string) (fs : filesystem)
    (data : list byte) :
  open_read filename fs = Ok data ->
  md5 filename fs
  = Ok (md5_hexdigest (fold_left md5_update (md5_update_calls data) md5_new)) /\
  concat (md5_update_calls data) = data /\
  Forall (fun chunk => 1 <= length chunk <= 4096) (md5_update_calls data) /\
  Forall (fun chunk => length chunk = 4096) (removelast (md5_update_calls data)) /\
  (md5_update_calls data = [] <-> data = []).
Proof.
  intros E. split; [|apply md5_update_calls_spec].
  unfold md5. rewrite E. simpl. now rewrite md5_chunks_fold.
Qed.

Lemma md5_reads_in_chunks_witness :
  map length (md5_update_calls (repeat "a"%byte 5000)) = [4096; 904] /\
  md5 (H := sum_hashlib) "big.bin"
      (add_node ["work"; "big.bin"] (File (repeat "a"%byte 5000)) work_fs)
  = Ok (md5_hexdigest (H := sum_hashlib)
          (fold_left md5_update (md5_update_calls (repeat "a"%byte 5000)) md5_new)).
Proof.
  split; [vm_compute; reflexivity|].
  apply (md5_reads_in_chunks (H := sum_hashlib) "big.bin"
           (add_node ["work"; "big.bin"] (File (repeat "a"%byte 5000)) work_fs)).
  vm_compute. reflexivity.
Defined.

(** X7. The checksum of a file just written: after [write out filename]
    returns, [md5 filename] is the digest of the bytes of [out]. *)
Theorem md5_after_write `{Hashlib} `{!HashlibLaws H} (out filename : string)
    (fs fs' : filesystem) :
  write out filename fs = Ok fs' ->
  md5 filename fs' = Ok (md5_of_bytes (list_byte_of_string out)).
Proof.
  intros E. apply (save_Ok filename (Ok (list_byte_of_string out))) in E
    as (data & Hdata & Hread & _).
  inversion Hdata; subst. unfold md5. rewrite Hread. simpl.
  now rewrite md5_chunks_update.
Qed.

Lemma md5_after_write_witness :
  let fs' := add_node ["work"; "out"; "a.txt"] (File (list_byte_of_string "abc"))
               (add_node ["work"; "out"] Dir work_fs) in
  write "abc" "out/a.txt" work_fs = Ok fs' /\
  md5 (H := sum_hashlib) "out/a.txt" fs' = Ok "26".
Proof.
  intros fs'.
  assert (write "abc" "out/a.txt" work_fs = Ok fs') as E by (vm_compute; reflexivity).
  split; [exact E|].
  rewrite (md5_after_write (H := sum_hashlib) (HashlibLaws0 := sum_hashlib_laws)
             "abc" "out/a.txt" work_fs fs' E).
  vm_compute. reflexivity.
Defined.

(* ===================================================================== *)
(** * More on autotext                                                    *)
(* ===================================================================== *)

(** X8. A caller's [xy] keyword collides with the [xy] that [autotext]
    passes to [ax.annotate] itself: the call is a [TypeError], whatever
    the other arguments are. *)
Theorem autotext_xy_keyword_raises (x y : Q) (s : string) (ax : option nat)
    (kwargs : gmap string pyval) (plt : pyplot) :
  is_Some (kwargs !! "xy") ->
  autotext x y s ax kwargs plt = Raise TypeError.
Proof.
  intros [v Hxy]. unfold autotext, dict_update. cbn [call_kw].
  erewrite lookup_union_Some_l by exact Hxy. reflexivity.
Qed.

Lemma autotext_xy_keyword_raises_witness :
  autotext 0.5 0.5 "here" None {[ "xy" := PyNum 1 ]}
           {| axes := fun _ => mkAxes (0, 1)%Q []; gca := 0 |}
  = Raise TypeError.
Proof.
  apply autotext_xy_keyword_raises. now exists (PyNum 1).
Defined.


(** X9. What a call of [autotext] that returns has done: one annotation,
    with the text and with [xy = (x, y)], is appended to the artists of
    the axes given, or of the current axes when none is given; every
    keyword of the caller is passed on as it is and the only keywords
    added are [xy], [xycoords], [ha] and [va]; the limits of the axes, the
    other axes and the current axes are as they were. *)
Theorem autotext_effect (x y : Q) (s : string) (ax : option nat)
    (kwargs : gmap string pyval) (plt plt' : pyplot) :
  autotext x y s ax kwargs plt = Ok plt' ->
  exists kw,
    artists (axes plt' (axes_or_current ax plt))
    = (artists (axes plt (axes_or_current ax plt)) ++ [Annotation s kw])%list /\
    kw !! "xy" = Some (PyTuple [PyNum x; PyNum y]) /\
    (forall k v, kwargs !! k = Some v -> kw !! k = Some v) /\
    dom kw = {[ "xy"; "xycoords"; "ha"; "va" ]} ∪ dom kwargs /\
    get_ylim (axes plt' (axes_or_current ax plt))
    = get_ylim (axes plt (axes_or_current ax plt)) /\
    (forall i, i <> axes_or_current ax plt -> axes plt' i = axes plt i) /\
    gca plt' = gca plt /\
    (ax = None -> axes_or_current ax plt = gca plt).
Proof.
  intros E.
  destruct (kwargs !! "xy") as [v|] eqn:Hxy.
  - exfalso.
    assert (autotext x y s ax kwargs plt = Raise TypeError) as E'.
    { unfold autotext, dict_update. cbn [call_kw].
      erewrite lookup_union_Some_l by exact Hxy. reflexivity. }
    congruence.
  - rewrite autotext_call in E by assumption. injection E as <-.
    eexists. split; [simpl; now rewrite Nat.eqb_refl|].
    split; [apply lookup_insert_eq|]. split.
    { intros k v Hk. rewrite autotext_kw_lookup by congruence. now rewrite Hk. }
    split.
    { rewrite dom_insert_L, dom_union_L, !dom_insert_L, dom_singleton_L.
      set_solver. }
    split; [simpl; now rewrite Nat.eqb_refl|]. split.
    { intros i Hi. simpl. apply Nat.eqb_neq in Hi. now rewrite Hi. }
    split; [reflexivity|]. now intros ->.
Qed.

Lemma autotext_effect_witness :
  exists kw,
    artists (axes (add_artist 3
                     (Annotation "peak"
                        {[ "xy" := PyTuple [PyNum 1; PyNum 1];
                           "xycoords" := PyStr "axes fraction";
                           "ha" := PyStr "right"; "va" := PyStr "top";
                           "color" := PyStr "red" ]})
                     {| axes := fun _ => mkAxes (0, 1)%Q []; gca := 3 |}) 3)
    = ([] ++ [Annotation "peak" kw])%list /\
    kw !! "color" = Some (PyStr "red").
Proof.
  destruct (autotext_effect 1 1 "peak" None {[ "color" := PyStr "red" ]}
              {| axes := fun _ => mkAxes (0, 1)%Q []; gca := 3 |}
              (add_artist 3
                 (Annotation "peak"
                    {[ "xy" := PyTuple [PyNum 1; PyNum 1];
                       "xycoords" := PyStr "axes fraction";
                       "ha" := PyStr "right"; "va" := PyStr "top";
                       "color" := PyStr "red" ]})
                 {| axes := fun _ => mkAxes (0, 1)%Q []; gca := 3 |}))
    as (kw & Hart & _ & Hpass & _).
  - vm_compute. reflexivity.
  - exists kw. split; [exact Hart|]. now apply Hpass.
Defined.

(* ===================================================================== *)
(** * More on autolabel                                                   *)
(* ===================================================================== *)

(** One pass of the loop of [autolabel], outcome by outcome. *)
Lemma autolabel_rect_unfold `{StrFormat} (xpos formatstr : string) (ax : nat)
    (ylim : option (Q * Q)) (kwargs : gmap string pyval)
    (ha : gmap string string) (offset : gmap string Q)
    (plt : pyplot) (rect : Rectangle) :
  autolabel_rect xpos formatstr ax ylim kwargs ha offset plt rect =
  (off ← getitem offset xpos;
   label ← str_format formatstr (fst (clamp_label ylim (get_height rect)));
   h ← getitem ha xpos;
   kw ← call_kw [("ha", PyStr h);
                 ("va", PyStr (snd (clamp_label ylim (get_height rect))))] kwargs;
   Ok (add_artist ax
         (Text (round64 (get_x rect + round64 (get_width rect * off)))
               (fst (clamp_label ylim (get_height rect))) label kw) plt)).
Proof.
  unfold autolabel_rect, clamp_label.
  repeat match goal with
         | |- context [let '(_, _) := ?c in _] => destruct c
         end.
  reflexivity.
Qed.

Lemma for_each_add_artist {A : Type} (P : A -> artist -> Prop) (ax : nat)
    (body : pyplot -> A -> result pyplot) (l : list A) (plt plt' : pyplot) :
  (forall p a p', body p a = Ok p' -> exists t, p' = add_artist ax t p /\ P a t) ->
  for_each body l plt = Ok plt' ->
  exists labels,
    Forall2 P l labels /\
    plt' = fold_left (fun p t => add_artist ax t p) labels plt.
Proof.
  intros Hbody. revert plt. induction l as [|a l IH]; intros plt Hrun.
  - exists []. split; [constructor | now inversion Hrun].
  - simpl in Hrun. apply bind_Ok in Hrun as (plt1 & Ha & Hrest).
    apply Hbody in Ha as (t & -> & Ht).
    apply IH in Hrest as (labels & Hall & ->).
    exists (t :: labels). split; [now constructor | reflexivity].
Qed.

Lemma fold_add_artist_frame (ax : nat) (labels : list artist) (plt : pyplot) :
  (forall i, get_ylim (axes (fold_left (fun p t => add_artist ax t p) labels plt) i)
             = get_ylim (axes plt i)) /\
  (forall i, i <> ax ->
             axes (fold_left (fun p t => add_artist ax t p) labels plt) i
             = axes plt i) /\
  gca (fold_left (fun p t => add_artist ax t p) labels plt) = gca plt.
Proof.
  revert plt. induction labels as [|t labels IH]; intros plt; [auto|].
  cbn [fold_left]. destruct (IH (add_artist ax t plt)) as (Hylim & Hother & Hgca).
  split; [|split].
  - intros i. rewrite Hylim. simpl. now destruct (Nat.eqb i ax).
  - intros i Hi. rewrite Hother by assumption. simpl.
    apply Nat.eqb_neq in Hi. now rewrite Hi.
  - now rewrite Hgca.
Qed.

Lemma autolabel_sides (side : string) :
  In side ["center"; "right"; "left"] ->
  exists off h,
    ({[ "center" := round64 0.5; "right" := round64 0.57; "left" := round64 0.43 ]}
       : gmap string Q) !! side = Some off /\
    ({[ "center" := "center"; "right" := "left"; "left" := "right" ]}
       : gmap string string) !! side = Some h.
Proof.
  intros [<-|[<-|[<-|[]]]]; do 2 eexists; split; reflexivity.
Qed.

(** X11. Unlike [autotext], [autolabel] takes no alignment from the
    caller: it passes [ha] and [va] itself, so with at least one bar, a
    valid side and a template that formats every number, a caller's [ha]
    or [va] makes the call a [TypeError]. *)
Theorem autolabel_alignment_keyword_raises `{StrFormat} (rect : Rectangle)
    (rects : list Rectangle) (xpos formatstr : string) (ax : option nat)
    (ylim : option (Q * Q)) (kwargs : gmap string pyval) (plt : pyplot) :
  In (lower xpos) ["center"; "right"; "left"] ->
  (forall q, exists label, str_format formatstr q = Ok label) ->
  is_Some (kwargs !! "ha") \/ is_Some (kwargs !! "va") ->
  autolabel (rect :: rects) xpos formatstr ax ylim kwargs plt = Raise TypeError.
Proof.
  intros Hside Hfmt Hkw.
  apply autolabel_sides in Hside as (off & h & Hoff & Hh).
  unfold autolabel. cbv zeta. cbn [for_each]. rewrite autolabel_rect_unfold.
  unfold getitem. rewrite Hoff, Hh. cbn [mbind result_bind].
  destruct (Hfmt (fst (clamp_label ylim (get_height rect)))) as [label ->].
  cbn [mbind result_bind call_kw].
  destruct (kwargs !! "ha") as [v|]; [reflexivity|].
  destruct (kwargs !! "va") as [v|]; [reflexivity|].
  destruct Hkw as [[v Hv]|[v Hv]]; discriminate.
Qed.

Lemma autolabel_alignment_keyword_raises_witness :
  autolabel (H := fraction_format) [mkRectangle 0 1 3] "center" "{}" None None
            {[ "va" := PyStr "center" ]}
            {| axes := fun _ => mkAxes (0, 1)%Q []; gca := 0 |}
  = Raise TypeError.
Proof.
  apply (autolabel_alignment_keyword_raises (H := fraction_format)).
  - left. reflexivity.
  - intros q. eexists. reflexivity.
  - right. now exists (PyStr "center").
Defined.

Lemma clamp_label_cases (ylim : option (Q * Q)) (h : Q) :
  (match ylim with
   | None => True
   | Some (lo, hi) => (lo <= h)%Q /\ (h <= hi)%Q
   end ->
   clamp_label ylim h = (h, if Qle_bool 0.0 h then "bottom" else "top")) /\
  (forall lo hi, ylim = Some (lo, hi) -> (hi < lo)%Q ->
                 clamp_label ylim h = (hi, "top")).
Proof.
  unfold clamp_label. split.
  - destruct ylim as [[lo hi]|]; [|reflexivity]. intros [Hlo Hhi].
    apply Qlt_bool_false_iff in Hlo. rewrite Hlo.
    apply Qlt_bool_false_iff in Hhi. now rewrite Hhi.
  - intros lo hi -> Hinv.
    destruct (Qlt_bool h lo) eqn:Elo.
    + apply Qlt_bool_iff in Hinv. now rewrite Hinv.
    + apply Qlt_bool_false_iff in Elo.
      assert (Qlt_bool hi h = true) as -> by (apply Qlt_bool_iff; lra).
      reflexivity.
Qed.

(** What a call of [autolabel] that returns has drawn, bar by bar. *)
Lemma autolabel_labels `{StrFormat} (rects : list Rectangle)
    (xpos formatstr : string) (ax : option nat) (ylim : option (Q * Q))
    (kwargs : gmap string pyval) (plt plt' : pyplot) :
  autolabel rects xpos formatstr ax ylim kwargs plt = Ok plt' ->
  exists labels,
    plt' = fold_left (fun p t => add_artist (axes_or_current ax plt) t p) labels plt /\
    Forall2
      (fun rect a =>
         exists x label kw,
           a = Text x (fst (clamp_label ylim (get_height rect))) label kw /\
           kw !! "va" = Some (PyStr (snd (clamp_label ylim (get_height rect)))) /\
           str_format formatstr (fst (clamp_label ylim (get_height rect)))
           = Ok label)
      rects labels.
Proof.
  unfold autolabel. cbv zeta. intros E.
  eapply for_each_add_artist in E as (labels & Hall & ->).
  - exists labels. split; [reflexivity | exact Hall].
  - clear. intros p rect p' E. rewrite autolabel_rect_unfold in E.
    apply bind_Ok in E as (off & _ & E).
    apply bind_Ok in E as (label & Hlabel & E).
    apply bind_Ok in E as (h & _ & E).
    apply bind_Ok in E as (kw & Hkw & E).
    apply call_kw_two_Ok in Hkw as (_ & _ & ->).
    injection E as <-. eexists. split; [reflexivity|].
    do 3 eexists. split; [reflexivity|].
    split; [now simplify_map_eq | exact Hlabel].
Qed.

(** X12. Without limits, and for a bar whose height is within the limits,
    the label is at the height of the bar, its text is the template
    applied to that height, and it sits above the bar ([bottom]) for a
    height that is not negative and below it ([top]) for a negative one. *)
Theorem autolabel_inside_limits `{StrFormat} (rects : list Rectangle)
    (xpos formatstr : string) (ax : option nat) (ylim : option (Q * Q))
    (kwargs : gmap string pyval) (plt plt' : pyplot) :
  autolabel rects xpos formatstr ax ylim kwargs plt = Ok plt' ->
  exists labels,
    artists (axes plt' (axes_or_current ax plt))
    = (artists (axes plt (axes_or_current ax plt)) ++ labels)%list /\
    Forall2
      (fun rect a =>
         exists x y label kw,
           a = Text x y label kw /\
           (match ylim with
            | None => True
            | Some (lo, hi) => (lo <= get_height rect)%Q /\ (get_height rect <= hi)%Q
            end ->
            y = get_height rect /\
            str_format formatstr (get_height rect) = Ok label /\
            ((0 <= get_height rect)%Q -> kw !! "va" = Some (PyStr "bottom")) /\
            ((get_height rect < 0)%Q -> kw !! "va" = Some (PyStr "top"))))
      rects labels.
Proof.
  intros E. apply autolabel_labels in E as (labels & -> & Hall).
  exists labels. split; [apply artists_fold_add_artist|].
  eapply Forall2_impl; [exact Hall|]. clear.
  intros rect a (x & label & kw & -> & Hva & Hfmt).
  do 4 eexists. split; [reflexivity|]. intros Hin.
  destruct (clamp_label_cases ylim (get_height rect)) as [Hclamp _].
  rewrite (Hclamp Hin) in Hva, Hfmt |- *. cbn [fst snd] in *.
  split; [reflexivity|]. split; [exact Hfmt|]. split; intros Hsign.
  - assert (Qle_bool 0.0 (get_height rect) = true) as Hb
      by (apply Qle_bool_iff; lra).
    now rewrite Hb in Hva.
  - destruct (Qle_bool 0.0 (get_height rect)) eqn:Hb; [|exact Hva].
    apply Qle_bool_iff in Hb. lra.
Qed.

Lemma autolabel_inside_limits_witness :
  exists labels,
    artists (axes (add_artist 0
                     (Text (1 + 1 * 0.5) (-2) "-2"
                        {[ "ha" := PyStr "center"; "va" := PyStr "top" ]})
                     {| axes := fun _ => mkAxes (0, 1)%Q []; gca := 0 |}) 0)
    = ([] ++ labels)%list /\
    Forall2
      (fun rect a =>
         exists x y label kw,
           a = Text x y label kw /\
           (((-5) <= get_height rect)%Q /\ (get_height rect <= 5)%Q ->
            y = get_height rect /\
            str_format (StrFormat := decimal_format) "{}" (get_height rect)
            = Ok label /\
            ((0 <= get_height rect)%Q -> kw !! "va" = Some (PyStr "bottom")) /\
            ((get_height rect < 0)%Q -> kw !! "va" = Some (PyStr "top"))))
      [mkRectangle 1 1 (-2)] labels.
Proof.
  apply (autolabel_inside_limits (H := decimal_format) [mkRectangle 1 1 (-2)]
           "center" "{}" None (Some (-5, 5)%Q) ∅
           {| axes := fun _ => mkAxes (0, 1)%Q []; gca := 0 |}).
  reflexivity.
Defined.

(** X13. Limits given upside down (the first above the second) put
    every label at the second limit, with alignment [top] and the text of
    that limit, whatever the height of the bar. *)
Theorem autolabel_inverted_limits `{StrFormat} (rects : list Rectangle)
    (xpos formatstr : string) (ax : option nat) (lo hi : Q)
    (kwargs : gmap string pyval) (plt plt' : pyplot) :
  (hi < lo)%Q ->
  autolabel rects xpos formatstr ax (Some (lo, hi)) kwargs plt = Ok plt' ->
  exists labels,
    artists (axes plt' (axes_or_current ax plt))
    = (artists (axes plt (axes_or_current ax plt)) ++ labels)%list /\
    Forall2
      (fun rect a =>
         exists x label kw,
           a = Text x hi label kw /\
           kw !! "va" = Some (PyStr "top") /\
           str_format formatstr hi = Ok label)
      rects labels.
Proof.
  intros Hinv E. apply autolabel_labels in E as (labels & -> & Hall).
  exists labels. split; [apply artists_fold_add_artist|].
  eapply Forall2_impl; [exact Hall|].
  intros rect a (x & label & kw & -> & Hva & Hfmt).
  destruct (clamp_label_cases (Some (lo, hi)) (get_height rect)) as [_ Hclamp].
  rewrite (Hclamp lo hi eq_refl Hinv) in Hva, Hfmt |- *. cbn [fst snd] in *.
  do 3 eexists. split; [reflexivity|]. split; assumption.
Qed.

Lemma autolabel_inverted_limits_witness :
  exists labels,
    artists (axes (add_artist 0
                     (Text (0 + 1 * 0.5) 0 "0"
                        {[ "ha" := PyStr "center"; "va" := PyStr "top" ]})
                     {| axes := fun _ => mkAxes (0, 1)%Q []; gca := 0 |}) 0)
    = ([] ++ labels)%list /\
    Forall2
      (fun rect a =>
         exists x label kw,
           a = Text x 0 label kw /\
           kw !! "va" = Some (PyStr "top") /\
           str_format (StrFormat := decimal_format) "{}" 0 = Ok label)
      [mkRectangle 0 1 7] labels.
Proof.
  apply (autolabel_inverted_limits (H := decimal_format) [mkRectangle 0 1 7]
           "center" "{}" None 10 0 ∅
           {| axes := fun _ => mkAxes (0, 1)%Q []; gca := 0 |});
    reflexivity.
Defined.

(** X14. [autolabel] only adds texts to one axes: it adds as many as
    there are bars, after the artists that were there; the limits of
    every axes, the other axes and the current axes are as they were. *)
Theorem autolabel_frame `{StrFormat} (rects : list Rectangle)
    (xpos formatstr : string) (ax : option nat) (ylim : option (Q * Q))
    (kwargs : gmap string pyval) (plt plt' : pyplot) :
  autolabel rects xpos formatstr ax ylim kwargs plt = Ok plt' ->
  (exists labels,
      length labels = length rects /\
      artists (axes plt' (axes_or_current ax plt))
      = (artists (axes plt (axes_or_current ax plt)) ++ labels)%list) /\
  (forall i, get_ylim (axes plt' i) = get_ylim (axes plt i)) /\
  (forall i, i <> axes_or_current ax plt -> axes plt' i = axes plt i) /\
  gca plt' = gca plt.
Proof.
  intros E. apply autolabel_labels in E as (labels & -> & Hall).
  split.
  - exists labels. split; [|apply artists_fold_add_artist].
    symmetry. exact (Forall2_length _ _ _ Hall).
  - apply fold_add_artist_frame.
Qed.

Lemma autolabel_frame_witness :
  let plt := {| axes := fun i => mkAxes (0, Z.of_nat i # 1)%Q []; gca := 2 |} in
  exists plt',
    autolabel (H := decimal_format) [mkRectangle 0 1 4; mkRectangle 1 1 6]
              "right" "{}" (Some 1%nat) None ∅ plt = Ok plt' /\
    get_ylim (axes plt' 1) = get_ylim (axes plt 1) /\
    axes plt' 2 = axes plt 2.
Proof.
  intros plt. eexists. split; [reflexivity|].
  match goal with
  | |- get_ylim (axes ?p _) = _ /\ _ =>
      destruct (autolabel_frame (H := decimal_format)
                  [mkRectangle 0 1 4; mkRectangle 1 1 6] "right" "{}"
                  (Some 1%nat) None ∅ plt p) as (_ & Hylim & Hother & _);
        [reflexivity|]
  end.
  split; [apply Hylim | apply Hother; discriminate].
Defined.

(* ===================================================================== *)
(** * More on set_ylim_symm and set_sharey_symm                           *)
(* ===================================================================== *)

Lemma Qabs_Qabs (q : Q) : Qabs (Qabs q) = Qabs q.
Proof. destruct q as [n d]. simpl. now rewrite Z.abs_idemp. Qed.

Lemma Qabs_opp_Qabs (q : Q) : Qabs (- Qabs q) = Qabs q.
Proof.
  destruct q as [n d]. unfold Qabs, Qopp. simpl.
  now rewrite Z.abs_opp, Z.abs_idemp.
Qed.

Lemma Qabs_bounds (q m : Q) : (Qabs q <= m)%Q -> (- m <= q)%Q /\ (q <= m)%Q.
Proof. intros Hle. now apply Qabs_Qle_condition. Qed.

Lemma py_max_self (m acc : Q) :
  (0 <= m)%Q -> acc = 0%Q \/ acc = m -> py_max m [m; acc] = m.
Proof.
  intros Hm Hacc. unfold py_max. simpl.
  assert (Qlt_bool m m = false) as -> by (apply Qlt_bool_false_iff; lra).
  assert (Qlt_bool m acc = false) as ->
    by (apply Qlt_bool_false_iff; destruct Hacc as [-> | ->]; lra).
  reflexivity.
Qed.

Lemma py_max_zero_last (a b : Q) :
  (0 <= a)%Q -> py_max a [b; 0%Q] = py_max a [b].
Proof.
  intros Ha. destruct (py_max_two a b) as (_ & Hle & _).
  unfold py_max in *. simpl in *.
  match goal with
  | |- (if Qlt_bool ?best 0 then _ else _) = _ =>
      assert (Qlt_bool best 0 = false) as -> by (apply Qlt_bool_false_iff; lra)
  end.
  reflexivity.
Qed.

(** The second loop of [set_sharey_symm], on the whole of an axes. *)
Lemma set_ylim_all_axes (bottom top : Q) (axs : list nat) (plt : pyplot) (i : nat) :
  axes (fold_left (fun p a => set_ylim a bottom top p) axs plt) i
  = (if in_dec Nat.eq_dec i axs
     then {| get_ylim := (bottom, top); artists := artists (axes plt i) |}
     else axes plt i) /\
  gca (fold_left (fun p a => set_ylim a bottom top p) axs plt) = gca plt.
Proof.
  revert plt. induction axs as [|a axs IH]; intros plt; [split; reflexivity|].
  cbn [fold_left]. destruct (IH (set_ylim a bottom top plt)) as [-> ->].
  split; [|reflexivity].
  destruct (in_dec Nat.eq_dec i axs) as [Hin|Hin];
    destruct (in_dec Nat.eq_dec i (a :: axs)) as [Hin'|Hin'].
  - simpl. now destruct (Nat.eqb i a).
  - exfalso. apply Hin'. now right.
  - destruct Hin' as [->|Hin']; [|contradiction].
    simpl. now rewrite Nat.eqb_refl.
  - simpl. destruct (Nat.eqb i a) eqn:E; [|reflexivity].
    apply Nat.eqb_eq in E as ->. exfalso. apply Hin'. now left.
Qed.

(** Axes that all have the range (-m, m) have m as their shared maximum. *)
Lemma sharey_absmax_fixed (plt : pyplot) (axs : list nat) (m : Q) :
  (0 <= m)%Q -> Qabs (- m) = m -> Qabs m = m ->
  (forall ax, In ax axs -> get_ylim (axes plt ax) = (- m, m)%Q) ->
  sharey_absmax plt axs = 0%Q /\ axs = [] \/ sharey_absmax plt axs = m.
Proof.
  intros Hm Hopp Habs. induction axs as [|a axs IH] using rev_ind; intros Hall.
  - left. split; reflexivity.
  - right. rewrite sharey_absmax_snoc.
    rewrite (Hall a) by (apply in_or_app; right; now left).
    cbn [fst snd]. rewrite Hopp, Habs. apply py_max_self; [assumption|].
    destruct IH as [[-> _]| ->]; auto.
    intros ax Hin. apply Hall, in_or_app. now left.
Qed.

Lemma set_ylim_symm_axes (ax : nat) (plt : pyplot) (i : nat) :
  axes (set_ylim_symm ax plt) i
  = (if Nat.eqb i ax
     then {| get_ylim :=
               (- py_max (Qabs (fst (get_ylim (axes plt ax))))
                         [Qabs (snd (get_ylim (axes plt ax)))],
                py_max (Qabs (fst (get_ylim (axes plt ax))))
                       [Qabs (snd (get_ylim (axes plt ax)))])%Q;
             artists := artists (axes plt i) |}
     else axes plt i) /\
  gca (set_ylim_symm ax plt) = gca plt.
Proof.
  unfold set_ylim_symm. destruct (get_ylim (axes plt ax)). split; reflexivity.
Qed.

(** X15. [set_ylim_symm] is idempotent, the new range is symmetric about
    zero and contains the old one, and nothing else changes: the artists
    of the axes, the other axes and the current axes are as they were. *)
Theorem set_ylim_symm_properties (ax : nat) (plt : pyplot) :
  (forall i, axes (set_ylim_symm ax (set_ylim_symm ax plt)) i
             = axes (set_ylim_symm ax plt) i) /\
  fst (get_ylim (axes (set_ylim_symm ax plt) ax))
  = (- snd (get_ylim (axes (set_ylim_symm ax plt) ax)))%Q /\
  (fst (get_ylim (axes (set_ylim_symm ax plt) ax))
   <= fst (get_ylim (axes plt ax)))%Q /\
  (fst (get_ylim (axes plt ax))
   <= snd (get_ylim (axes (set_ylim_symm ax plt) ax)))%Q /\
  (fst (get_ylim (axes (set_ylim_symm ax plt) ax))
   <= snd (get_ylim (axes plt ax)))%Q /\
  (snd (get_ylim (axes plt ax))
   <= snd (get_ylim (axes (set_ylim_symm ax plt) ax)))%Q /\
  (forall i, artists (axes (set_ylim_symm ax plt) i) = artists (axes plt i)) /\
  (forall i, i <> ax -> axes (set_ylim_symm ax plt) i = axes plt i) /\
  gca (set_ylim_symm ax plt) = gca plt.
Proof.
  pose proof (fun p i => proj1 (set_ylim_symm_axes ax p i)) as Haxes.
  set (yb := fst (get_ylim (axes plt ax))) in *.
  set (yt := snd (get_ylim (axes plt ax))) in *.
  destruct (py_max_two (Qabs yb) (Qabs yt)) as (Hsel & Hb & Ht).
  assert (Qabs (- py_max (Qabs yb) [Qabs yt]) = py_max (Qabs yb) [Qabs yt] /\
          Qabs (py_max (Qabs yb) [Qabs yt]) = py_max (Qabs yb) [Qabs yt])
    as [Hopp Habs].
  { destruct Hsel as [-> | ->]; split;
      auto using Qabs_Qabs, Qabs_opp_Qabs. }
  assert (0 <= py_max (Qabs yb) [Qabs yt])%Q as Hm
    by (pose proof (Qabs_nonneg yb); lra).
  apply Qabs_bounds in Hb as [Hb1 Hb2]. apply Qabs_bounds in Ht as [Ht1 Ht2].
  assert (get_ylim (axes (set_ylim_symm ax plt) ax)
          = (- py_max (Qabs yb) [Qabs yt], py_max (Qabs yb) [Qabs yt])%Q) as Hnew.
  { rewrite (Haxes plt ax), Nat.eqb_refl. reflexivity. }
  split.
  { intros i. rewrite (Haxes (set_ylim_symm ax plt) i), Hnew. cbn [fst snd].
    rewrite Hopp, Habs.
    assert (forall m, py_max m [m] = m) as ->.
    { intros m. unfold py_max. cbn [fold_left].
      assert (Qlt_bool m m = false) as -> by (apply Qlt_bool_false_iff; lra).
      reflexivity. }
    rewrite (Haxes plt i). now destruct (Nat.eqb i ax). }
  rewrite Hnew. cbn [fst snd].
  repeat match goal with |- _ /\ _ => split end; try assumption;
    try reflexivity.
  - intros i. rewrite (Haxes plt i). now destruct (Nat.eqb i ax).
  - intros i Hi. rewrite (Haxes plt i). apply Nat.eqb_neq in Hi. now rewrite Hi.
  - exact (proj2 (set_ylim_symm_axes ax plt 0)).
Qed.

(** X16. On a list of one axes [set_sharey_symm] is [set_ylim_symm]. *)
Theorem set_sharey_symm_single (ax : nat) (plt : pyplot) :
  (forall i, axes (set_sharey_symm [ax] plt) i = axes (set_ylim_symm ax plt) i) /\
  gca (set_sharey_symm [ax] plt) = gca (set_ylim_symm ax plt).
Proof.
  unfold set_sharey_symm, set_ylim_symm. cbn [fold_left].
  destruct (get_ylim (axes plt ax)) as [yb yt].
  rewrite py_max_zero_last by apply Qabs_nonneg.
  split; reflexivity.
Qed.

(** X17. [set_sharey_symm] touches the ranges of the listed axes only,
    and is idempotent: an empty list changes nothing; an axes that is not
    in the list, the artists of every axes and the current axes are as
    they were; the new range of a listed axes contains its old one; and a
    second call leaves every axes as the first call left it. *)
Theorem set_sharey_symm_properties (axs : list nat) (plt : pyplot) :
  (forall i, axes (set_sharey_symm [] plt) i = axes plt i) /\
  (forall i, ~ In i axs -> axes (set_sharey_symm axs plt) i = axes plt i) /\
  (forall i, artists (axes (set_sharey_symm axs plt) i) = artists (axes plt i)) /\
  gca (set_sharey_symm axs plt) = gca plt /\
  (forall ax, In ax axs ->
     (fst (get_ylim (axes (set_sharey_symm axs plt) ax))
      <= fst (get_ylim (axes plt ax)))%Q /\
     (fst (get_ylim (axes (set_sharey_symm axs plt) ax))
      <= snd (get_ylim (axes plt ax)))%Q /\
     (fst (get_ylim (axes plt ax))
      <= snd (get_ylim (axes (set_sharey_symm axs plt) ax)))%Q /\
     (snd (get_ylim (axes plt ax))
      <= snd (get_ylim (axes (set_sharey_symm axs plt) ax)))%Q) /\
  (forall i, axes (set_sharey_symm axs (set_sharey_symm axs plt)) i
             = axes (set_sharey_symm axs plt) i).
Proof.
  assert (forall p i,
             axes (set_sharey_symm axs p) i
             = if in_dec Nat.eq_dec i axs
               then {| get_ylim := (- sharey_absmax p axs, sharey_absmax p axs)%Q;
                       artists := artists (axes p i) |}
               else axes p i) as Haxes.
  { intros p i. unfold set_sharey_symm. fold (sharey_absmax p axs).
    apply set_ylim_all_axes. }
  destruct (sharey_absmax_bound plt axs) as (Hpos & Hbound & Hex).
  split; [reflexivity|]. split.
  { intros i Hi. rewrite Haxes. now destruct (in_dec Nat.eq_dec i axs). }
  split.
  { intros i. rewrite Haxes. now destruct (in_dec Nat.eq_dec i axs). }
  split.
  { unfold set_sharey_symm. exact (proj2 (set_ylim_all_axes _ _ axs plt 0)). }
  split.
  { intros ax Hin. rewrite Haxes.
    destruct (in_dec Nat.eq_dec ax axs); [|contradiction]. cbn [get_ylim fst snd].
    destruct (Hbound ax Hin) as [Hb Ht].
    apply Qabs_bounds in Hb as [? ?]. apply Qabs_bounds in Ht as [? ?]. auto. }
  intros i. rewrite (Haxes (set_sharey_symm axs plt)).
  destruct (in_dec Nat.eq_dec i axs) as [Hin|Hin]; [|reflexivity].
  assert (axs <> []) as Hne by (intros ->; destruct Hin).
  set (m := sharey_absmax plt axs) in *.
  assert (Qabs (- m) = m /\ Qabs m = m) as [Hopp Habs].
  { destruct (Hex Hne) as (ax & _ & [-> | ->]); split;
      auto using Qabs_Qabs, Qabs_opp_Qabs. }
  assert (sharey_absmax (set_sharey_symm axs plt) axs = m) as ->.
  { destruct (sharey_absmax_fixed (set_sharey_symm axs plt) axs m Hpos Hopp Habs)
      as [[_ ?]|Hfix]; [|contradiction|exact Hfix].
    intros ax Hax. rewrite Haxes.
    now destruct (in_dec Nat.eq_dec ax axs). }
  rewrite Haxes. destruct (in_dec Nat.eq_dec i axs); [reflexivity|contradiction].
Qed.

Lemma set_ylim_symm_properties_witness :
  let plt := {| axes := fun i => mkAxes (-2, Z.of_nat i + 5 # 1)%Q []; gca := 0 |} in
  axes (set_ylim_symm 0 plt) 1 = axes plt 1 /\
  get_ylim (axes (set_ylim_symm 0 plt) 0) = (-5, 5)%Q.
Proof.
  intros plt.
  destruct (set_ylim_symm_properties 0 plt) as (_ & _ & _ & _ & _ & _ & _ & Hother & _).
  split; [apply Hother; discriminate | reflexivity].
Defined.

Lemma set_sharey_symm_properties_witness :
  let plt := {| axes := fun i => mkAxes (-2, Z.of_nat i + 5 # 1)%Q []; gca := 0 |} in
  axes (set_sharey_symm [0; 1]%nat plt) 2 = axes plt 2 /\
  (fst (get_ylim (axes (set_sharey_symm [0; 1]%nat plt) 0))
   <= fst (get_ylim (axes plt 0)))%Q /\
  get_ylim (axes (set_sharey_symm [0; 1]%nat plt) 0) = (-6, 6)%Q.
Proof.
  intros plt.
  destruct (set_sharey_symm_properties [0; 1]%nat plt)
    as (_ & Hother & _ & _ & Hcover & _).
  split; [apply Hother; intros [H|[H|[]]]; discriminate|].
  split; [apply Hcover; now left | reflexivity].
Defined.

(* ===================================================================== *)
(** * More on savefig                                                     *)
(* ===================================================================== *)

(** X18. The [tight_layout] option of [savefig] is taken out of the
    keyword arguments before they go to [plt.savefig]: with a true value
    the call is [plt.tight_layout()] followed by the call without the
    option, and with a false value ([False], [None], 0, an empty string
    or container) it is the call without the option. *)
Theorem savefig_tight_layout `{Matplotlib} (filename : string)
    (kwargs : gmap string pyval) (v : pyval) (fs : filesystem) (plt : pyplot) :
  kwargs !! "tight_layout" = None ->
  (truthy v = true ->
   savefig filename (<["tight_layout" := v]> kwargs) fs plt
   = savefig filename kwargs fs (plt_tight_layout plt)) /\
  (truthy v = false ->
   savefig filename (<["tight_layout" := v]> kwargs) fs plt
   = savefig filename kwargs fs plt).
Proof.
  intros Hnone. unfold savefig.
  rewrite lookup_insert_eq, Hnone, delete_insert_id by assumption.
  rewrite (delete_id kwargs) by assumption. cbn [default id].
  split; intros ->; reflexivity.
Qed.

Lemma savefig_tight_layout_witness :
  savefig (H := blank_matplotlib) "fig/a.png"
          {[ "tight_layout" := PyBool true; "dpi" := PyNum 300 ]} work_fs
          {| axes := fun _ => mkAxes (0, 1)%Q []; gca := 0 |}
  = savefig (H := blank_matplotlib) "fig/a.png" {[ "dpi" := PyNum 300 ]} work_fs
            (plt_tight_layout (Matplotlib := blank_matplotlib)
               {| axes := fun _ => mkAxes (0, 1)%Q []; gca := 0 |}).
Proof.
  destruct (savefig_tight_layout (H := blank_matplotlib) "fig/a.png"
              {[ "dpi" := PyNum 300 ]} (PyBool true) work_fs
              {| axes := fun _ => mkAxes (0, 1)%Q []; gca := 0 |})
    as [Htrue _]; [reflexivity|].
  rewrite <- Htrue by reflexivity. f_equal.
Defined.

(* ===================================================================== *)
(** * ax_axhlines_alpha                                                   *)
(* ===================================================================== *)

(** X20. [ax_axhlines_alpha] draws two horizontal lines on the axes given
    (on the current axes when none is given), after the lines that were
    there: the first at the value of [neglog10], the second at its
    opposite, each with every keyword of the caller; it leaves the lines
    of the other axes as they were.  It raises what [neglog10] raises,
    and a [TypeError] when the caller passes [y]. *)
Theorem ax_axhlines_alpha_effect `{Stats} (a : Q) (ax : option nat)
    (kwargs : gmap string pyval) (plt : pyplot)
    (lines : nat -> list (gmap string pyval)) :
  (forall e, neglog10 a = Raise e ->
             ax_axhlines_alpha a ax kwargs plt lines = Raise e) /\
  (forall v, neglog10 a = Ok v -> is_Some (kwargs !! "y") ->
             ax_axhlines_alpha a ax kwargs plt lines = Raise TypeError) /\
  (forall v, neglog10 a = Ok v -> kwargs !! "y" = None ->
     exists lines',
       ax_axhlines_alpha a ax kwargs plt lines = Ok lines' /\
       lines' (axes_or_current ax plt)
       = (lines (axes_or_current ax plt)
            ++ [<["y" := PyNum v]> kwargs; <["y" := PyNum (- v)]> kwargs])%list /\
       (forall i, i <> axes_or_current ax plt -> lines' i = lines i)).
Proof.
  unfold ax_axhlines_alpha. split; [|split].
  - intros e ->. reflexivity.
  - intros v -> [w Hw]. cbn [mbind result_bind call_kw]. now rewrite Hw.
  - intros v -> Hy. cbn [mbind result_bind]. rewrite !call_kw_one by assumption.
    cbn [mbind result_bind]. eexists. split; [reflexivity|]. split.
    + unfold ax_axhline. rewrite Nat.eqb_refl. now rewrite <- app_assoc.
    + intros i Hi. unfold ax_axhline. apply Nat.eqb_neq in Hi. now rewrite Hi.
Qed.

Lemma ax_axhlines_alpha_effect_witness :
  exists lines',
    ax_axhlines_alpha (H := table_stats) 0.05 None
                      {[ "color" := PyStr "red" ]}
                      {| axes := fun _ => mkAxes (0, 1)%Q []; gca := 4 |}
                      (fun _ => []) = Ok lines' /\
    lines' 4%nat
    = ([] ++ [<["y" := PyNum 1.30103]> {[ "color" := PyStr "red" ]};
              <["y" := PyNum (- 1.30103)]> {[ "color" := PyStr "red" ]}])%list /\
    (forall i, i <> 4%nat -> lines' i = []).
Proof.
  destruct (ax_axhlines_alpha_effect (H := table_stats) 0.05 None
              {[ "color" := PyStr "red" ]}
              {| axes := fun _ => mkAxes (0, 1)%Q []; gca := 4 |} (fun _ => []))
    as (_ & _ & Hok).
  apply (Hok 1.30103%Q); reflexivity.
Defined.

(* ===================================================================== *)
(** * Saving next to other files                                          *)
(* ===================================================================== *)




